(** * etl_pipeline.py: the Hugging Face model-metadata ETL, embedded in Rocq

    The development follows [src/etl_pipeline.py]:

    - [transform_models_data] (lines 33-60) builds a pandas DataFrame from the
      raw JSON records, fills missing timestamps, stamps the batch and derives
      the [is_recent] flag;
    - [load_to_postgres] (lines 63-122) opens a psycopg2 connection, ensures
      the table, upserts every row and commits.

    Python objects are an inductive type, the DataFrame is an ordered list of
    named columns, and the side effects (wall clock, store, connection) are
    threaded through a state-and-exception monad over [World].  Logging has no
    effect on any value and is left out. *)

From Stdlib Require Import ZArith Bool List.
From stdpp Require Import base option list gmap strings fin_maps.

Local Open Scope string_scope.
Local Open Scope list_scope.
Local Open Scope Z_scope.

(** ** Python values *)

#[local] Set Warnings "-register-all".

(** What [response.json()] can hand over.  Numbers are integers (the counters
    of the API); JSON floats are not modelled. *)
Inductive json : Type :=
| JNull
| JBool (b : bool)
| JInt (n : Z)
| JStr (s : string)
| JList (xs : list json)
| JDict (kvs : list (string * json)).

(** A cell of the DataFrame.  [Timestamp] is a naive [pd.Timestamp], on the
    time line of [datetime.now()], in nanoseconds since the epoch;
    [TimestampTz] is a zone-aware one.  [Array source] is the array
    ([DatetimeIndex] or Series) that [pd.to_datetime] makes of a value that
    is not a scalar.  [Float n] is the float a column of integers with gaps
    holds in place of the integer [n].  [NaT] and [NaN] are the missing-value
    markers of pandas, beside [None]. *)
Inductive cell : Type :=
| Obj (j : json)
| Timestamp (t : Z)
| TimestampTz (t : Z)
| Array (source : json)
| Float (n : Z)
| NaT
| NaN.

(** A raw record is a [dict] with string keys. *)
Abbreviation RawRecord := (gmap string json).

(** [KeyError key] is what [df[label]] raises; a selection [df[labels]]
    raises one [KeyError] whose message names every label it did not find,
    here [KeyError_not_in_index]. *)
Inductive exn : Type :=
| KeyError (key : string)
| KeyError_not_in_index (missing : list string)
| TypeError
| ValueError
| OperationalError
| ProgrammingError
| DataError
| IntegrityError
| InterfaceError.

Inductive result (A : Type) : Type :=
| Ok (a : A)
| Raise (e : exn).
Arguments Ok {A} a.
Arguments Raise {A} e.

(** [bool(x)] on JSON values. *)
Definition truthy (j : json) : bool :=
  match j with
  | JNull => false
  | JBool b => b
  | JInt n => negb (n =? 0)
  | JStr s => negb (String.eqb s "")
  | JList xs => match xs with [] => false | _ => true end
  | JDict kvs => match kvs with [] => false | _ => true end
  end.

(** [model.get(key, default)]: the default is used only when the key is
    absent; a key bound to [null] yields [None]. *)
Definition get (model : RawRecord) (key : string) (default : cell) : cell :=
  match model !! key with
  | Some v => Obj v
  | None => default
  end.

(** [model.get(key)], whose default is [None]. *)
Definition get_none (model : RawRecord) (key : string) : cell :=
  get model key (Obj JNull).

(** [a or b], for [a] a JSON value. *)
Definition py_or (a b : cell) : cell :=
  match a with
  | Obj j => if truthy j then a else b
  | _ => a
  end.

(** ** The DataFrame *)

Abbreviation Series := (list cell).
Abbreviation pydict := (list (string * cell)).

Record DataFrame : Type := mkDataFrame {
  df_len : nat;                          (* length of the index *)
  df_columns : list (string * Series)    (* columns, in order *)
}.

Fixpoint assoc {A : Type} (key : string) (kvs : list (string * A)) : option A :=
  match kvs with
  | [] => None
  | (k, v) :: rest => if String.eqb k key then Some v else assoc key rest
  end.

(** Column labels of [pd.DataFrame(list_of_dicts)]: the keys of the dicts in
    order of first appearance.  For an empty list there is no column. *)
Fixpoint add_labels (seen new : list string) : list string :=
  match new with
  | [] => seen
  | k :: rest =>
      if existsb (String.eqb k) seen then add_labels seen rest
      else add_labels (seen ++ [k]) rest
  end.

Definition frame_labels (ds : list pydict) : list string :=
  fold_left (fun seen d => add_labels seen (map fst d)) ds [].

(** [df[label]]: [KeyError] when there is no such column. *)
Definition getitem (df : DataFrame) (label : string) : result Series :=
  match assoc label (df_columns df) with
  | Some s => Ok s
  | None => Raise (KeyError label)
  end.

Fixpoint set_column (label : string) (s : Series)
    (cols : list (string * Series)) : list (string * Series) :=
  match cols with
  | [] => [(label, s)]
  | (k, old) :: rest =>
      if String.eqb k label then (k, s) :: rest
      else (k, old) :: set_column label s rest
  end.

(** [df[label] = series]: replaces the column or appends a new one. *)
Definition setitem (df : DataFrame) (label : string) (s : Series) : DataFrame :=
  mkDataFrame (df_len df) (set_column label s (df_columns df)).

(** [df[label] = scalar]: the scalar is broadcast over the index. *)
Definition setitem_scalar (df : DataFrame) (label : string) (x : cell) : DataFrame :=
  setitem df label (replicate (df_len df) x).

Definition isna (x : cell) : bool :=
  match x with
  | Obj JNull | NaT | NaN => true
  | _ => false
  end.

(** [series.fillna(value)]. *)
Definition fillna (s : Series) (value : cell) : Series :=
  map (fun x => if isna x then value else x) s.

(** [series.apply(f)] for an [f] that may raise: the first exception stops the
    traversal. *)
Fixpoint series_apply (f : cell -> result cell) (s : Series) : result Series :=
  match s with
  | [] => Ok []
  | x :: rest =>
      match f x with
      | Raise e => Raise e
      | Ok y =>
          match series_apply f rest with
          | Raise e => Raise e
          | Ok ys => Ok (y :: ys)
          end
      end
  end.

(** [df[labels]]: the sub-frame with exactly these columns, in this order.
    When labels are missing, the one [KeyError] names them all. *)
Definition missing_labels (cols : list (string * Series)) (labels : list string)
    : list string :=
  List.filter (fun l => match assoc l cols with
                        | None => true
                        | Some _ => false
                        end) labels.

Definition select_columns (cols : list (string * Series)) (labels : list string)
    : result (list (string * Series)) :=
  match missing_labels cols labels with
  | [] => Ok (map (fun l => (l, default [] (assoc l cols))) labels)
  | missing => Raise (KeyError_not_in_index missing)
  end.

Definition getitems (df : DataFrame) (labels : list string) : result DataFrame :=
  match select_columns (df_columns df) labels with
  | Ok sel => Ok (mkDataFrame (df_len df) sel)
  | Raise e => Raise e
  end.

(** [df.values.tolist()]: one list per index position, one cell per column. *)
Definition values_tolist (df : DataFrame) : list (list cell) :=
  map (fun i => map (fun c => nth i (snd c) NaN) (df_columns df))
      (seq 0 (df_len df)).

(** [df.at[i, label]], a single cell by row position and column label, with
    [None] where pandas raises. *)
Definition at_ (df : DataFrame) (i : nat) (label : string) : option cell :=
  match assoc label (df_columns df) with
  | Some s => s !! i
  | None => None
  end.

(** ** The world outside the script *)

(** Column types of the [CREATE TABLE] statement (lines 70-85) and the values
    the store keeps in them. *)
Inductive sqltype : Type := TEXT | INTEGER | BOOLEAN | TIMESTAMP.

Inductive sqlval : Type :=
| SqlNull
| SqlText (s : string)
| SqlInteger (n : Z)
| SqlBoolean (b : bool)
| SqlTimestamp (t : Z).

(** A stored row of [huggingface_models] without its key [modelId]. *)
Record Row : Type := mkRow {
  author : sqlval;
  downloads : sqlval;
  likes : sqlval;
  pipeline_tag : sqlval;
  library_name : sqlval;
  model_type : sqlval;
  license : sqlval;
  private : sqlval;
  last_modified : sqlval;
  is_recent : sqlval;
  fetch_time : sqlval
}.

(** The table, keyed by its primary key [modelId]. *)
Abbreviation Table := (gmap string Row).

(** The connection of the running call and the state its open transaction
    sees ([None]: the relation does not exist). *)
Record Session : Type := mkSession {
  is_open : bool;
  snapshot : option Table
}.

(** Calls made to the driver, in order. *)
Inductive Event : Type :=
| EvConnect
| EvCursor
| EvCreateTable
| EvInsert (params : list cell)
| EvCommit
| EvCursorClose
| EvClose.

Record World : Type := mkWorld {
  clock_reads : nat;           (* how often the wall clock has been read *)
  committed : option Table;    (* what the store holds durably *)
  session : option Session;
  trace : list Event
}.

(** What [pd.to_datetime(value, errors='coerce')] makes of a value that is
    not [None]: a naive or a zone-aware timestamp, [NaT] for what is not a
    date, or an array for a value that is not a scalar. *)
Inductive parsed : Type :=
| Naive (t : Z)
| Aware (t : Z)
| NotADate
| AsArray.

(** What the script cannot control: the wall clock, pandas, the driver and
    the server.

    - [parse_datetime] is [pd.to_datetime(value, errors='coerce')] on a value
      that is not [None]; it can raise, [errors='coerce'] notwithstanding
      (a dict gives [ValueError]).
    - [missing_marker], [int_beside_missing] are the dtype inference of
      [pd.DataFrame] on a column that has missing values: the marker the
      column uses for them ([None]: each stays as it is) and what an integer
      of such a column becomes.  They differ between versions of pandas.
    - [array_flag fetch_time source] is [bool(x >= fetch_time -
      timedelta(days=30))] for [x] the array made of [source].
    - [adapt] is the conversion of a Python parameter to the type of its
      column; it raises what psycopg2 or PostgreSQL raise for a value that
      does not fit.  [commit], [cursor()] and the two [close] calls are taken
      to succeed. *)
Record Env : Type := mkEnv {
  wall_clock : nat -> Z;
  parse_datetime : json -> result parsed;
  connect_fault : option exn;
  create_fault : option exn;
  adapt : sqltype -> cell -> result sqlval;
  missing_marker : Series -> option cell;
  int_beside_missing : Series -> Z -> cell;
  array_flag : Z -> json -> result bool
}.

(** ** State and exceptions *)

Definition M (A : Type) : Type := World -> result A * World.

Definition ret {A : Type} (a : A) : M A := fun w => (Ok a, w).

Definition raise {A : Type} (e : exn) : M A := fun w => (Raise e, w).

Definition bind {A B : Type} (m : M A) (k : A -> M B) : M B :=
  fun w =>
    match m w with
    | (Ok a, w') => k a w'
    | (Raise e, w') => (Raise e, w')
    end.

(** [try: body except Exception as e: handler(e)]. *)
Definition try_except {A : Type} (body : M A) (handler : exn -> M A) : M A :=
  fun w =>
    match body w with
    | (Ok a, w') => (Ok a, w')
    | (Raise e, w') => handler e w'
    end.

Definition lift {A : Type} (r : result A) : M A := fun w => (r, w).

Definition emit (ev : Event) : M unit :=
  fun w => (Ok tt, mkWorld (clock_reads w) (committed w) (session w) (trace w ++ [ev])).

Declare Scope py_scope.
Delimit Scope py_scope with py.
Notation "x <- m ;; k" := (bind m (fun x => k))
  (at level 100, m at next level, right associativity) : py_scope.
Notation "m ;; k" := (bind m (fun _ => k))
  (at level 100, right associativity) : py_scope.

Definition bind_result {A B : Type} (r : result A) (k : A -> result B) : result B :=
  match r with
  | Ok a => k a
  | Raise e => Raise e
  end.

Declare Scope result_scope.
Delimit Scope result_scope with res.
Notation "x <- r ;; k" := (bind_result r (fun x => k))
  (at level 100, r at next level, right associativity) : result_scope.

Section Pipeline.

Context (env : Env).

(** ** Transform (lines 33-60) *)

(** [pd.Timestamp.now()] and [datetime.now()]: each call is a fresh reading of
    the wall clock. *)
Definition now : M Z :=
  fun w =>
    (Ok (wall_clock env (clock_reads w)),
     mkWorld (S (clock_reads w)) (committed w) (session w) (trace w)).

(** [pd.to_datetime(arg, errors='coerce')] for [arg] the value of
    [model.get("lastModified", pd.NaT)]: [None] and [NaT] come back
    unchanged. *)
Definition to_datetime (arg : cell) : result cell :=
  match arg with
  | Obj JNull => Ok (Obj JNull)
  | Obj j =>
      match parse_datetime env j with
      | Raise e => Raise e
      | Ok (Naive t) => Ok (Timestamp t)
      | Ok (Aware t) => Ok (TimestampTz t)
      | Ok NotADate => Ok NaT
      | Ok AsArray => Ok (Array j)
      end
  | other => Ok other
  end.

(** [timedelta(days=d)], in nanoseconds. *)
Definition timedelta_days (d : Z) : Z := d * 86400 * 1000000000.

Definition str (s : string) : cell := Obj (JStr s).

(** The dict literal of lines 36-48, with the value of [pd.to_datetime]. *)
Definition row_dict (model : RawRecord) (last_modified : cell) : pydict :=
  [ ("modelname", get model "name" (str ""));
    ("modelId", get model "modelId" (str ""));
    ("author", get model "author" (str "unknown"));
    ("downloads", py_or (get_none model "downloads") (Obj (JInt 0)));
    ("likes", py_or (get_none model "likes") (Obj (JInt 0)));
    ("pipeline_tag", get model "pipeline_tag" (str ""));
    ("library_name", get model "library_name" (str ""));
    ("model_type", get model "model_type" (str ""));
    ("license", get model "license" (str "unknown"));
    ("private", get model "private" (Obj (JBool false)));
    ("last_modified", last_modified) ].

(** The dict built for one model (lines 36-48): of its entries only the last
    can raise. *)
Definition model_dict (model : RawRecord) : result pydict :=
  (last_modified <- to_datetime (get model "lastModified" NaT) ;;
   Ok (row_dict model last_modified))%res.

(** The list comprehension: one dict per model, in order; an exception stops
    it at the model that raised. *)
Fixpoint comprehension (models : list RawRecord) : result (list pydict) :=
  match models with
  | [] => Ok []
  | model :: rest =>
      (d <- model_dict model ;;
       ds <- comprehension rest ;;
       Ok (d :: ds))%res
  end.

(** The dtype inference of [pd.DataFrame] on one column.  A column without
    missing values keeps its cells.  In a column with missing values, these
    stay missing, under the marker of the column, an integer becomes what the
    column makes of it, and every other cell (a string, a boolean, a
    timestamp, a list, a dict) is kept. *)
Definition infer_cell (col : Series) (x : cell) : cell :=
  if isna x then
    match missing_marker env col with
    | Some marker => if isna marker then marker else x
    | None => x
    end
  else
    match x with
    | Obj (JInt n) => int_beside_missing env col n
    | _ => x
    end.

Definition infer_column (col : Series) : Series :=
  if forallb (fun x => negb (isna x)) col then col
  else map (infer_cell col) col.

(** [pd.DataFrame(ds)]; a key a dict lacks gives [NaN] in that row. *)
Definition DataFrame_of_dicts (ds : list pydict) : DataFrame :=
  mkDataFrame (length ds)
    (map (fun c => (c, infer_column (map (fun d => default NaN (assoc c d)) ds)))
         (frame_labels ds)).

(** [lambda x: bool(x >= fetch_time - timedelta(days=30))] (line 58), with
    [fetch_time] the naive [datetime.now()].  A zone-aware timestamp does not
    compare with it; a comparison with [NaT] is false; an array compares
    element by element and [bool] of the result is [array_flag]; other
    objects do not compare with a datetime. *)
Definition recent_flag (fetch_time : Z) (x : cell) : result cell :=
  match x with
  | Timestamp t => Ok (Obj (JBool (t >=? fetch_time - timedelta_days 30)))
  | TimestampTz _ => Raise TypeError
  | Array source =>
      match array_flag env fetch_time source with
      | Ok b => Ok (Obj (JBool b))
      | Raise e => Raise e
      end
  | NaT => Ok (Obj (JBool false))
  | _ => Raise TypeError
  end.

(** Lines 51-60, on the frame of line 36. *)
Definition finish_frame (df : DataFrame) : M DataFrame :=
  ((* line 51 *)
   col <- lift (getitem df "last_modified") ;;
   filler <- now ;;
   let df := setitem df "last_modified" (fillna col (Timestamp filler)) in
   (* lines 54-55 *)
   fetch_time <- now ;;
   let df := setitem_scalar df "fetch_time" (Timestamp fetch_time) in
   (* line 58 *)
   col <- lift (getitem df "last_modified") ;;
   flags <- lift (series_apply (recent_flag fetch_time) col) ;;
   ret (setitem df "is_recent" flags))%py.

Definition transform_models_data (models : list RawRecord) : M DataFrame :=
  (dicts <- lift (comprehension models) ;;
   finish_frame (DataFrame_of_dicts dicts))%py.

(** ** Load (lines 63-122) *)

(** [psycopg2.connect] with the keywords of [DB_CONFIG]: a new session; its transaction starts
    from what the store holds. *)
Definition connect : M unit :=
  (emit EvConnect ;;
   match connect_fault env with
   | Some e => raise e
   | None =>
       fun w =>
         (Ok tt,
          mkWorld (clock_reads w) (committed w)
                  (Some (mkSession true (committed w))) (trace w))
   end)%py.

Definition cursor : M unit := emit EvCursor.

(** A statement run on the open connection: it acts on the snapshot of the
    transaction and on nothing else. *)
Definition in_transaction (stmt : option Table -> result (option Table)) : M unit :=
  fun w =>
    match session w with
    | Some s =>
        if is_open s then
          match stmt (snapshot s) with
          | Ok t' =>
              (Ok tt,
               mkWorld (clock_reads w) (committed w)
                       (Some (mkSession true t')) (trace w))
          | Raise e => (Raise e, w)
          end
        else (Raise InterfaceError, w)
    | None => (Raise InterfaceError, w)
    end.

(** The relation after [CREATE TABLE IF NOT EXISTS]: as it was, or empty when
    it did not exist. *)
Definition ensured (stored : option Table) : Table :=
  match stored with
  | Some tbl => tbl
  | None => ∅
  end.

(** [CREATE TABLE IF NOT EXISTS huggingface_models (...)]. *)
Definition create_table_if_not_exists (t : option Table) : result (option Table) :=
  match create_fault env with
  | Some e => Raise e
  | None => Ok (Some (ensured t))
  end.

Definition execute_create : M unit :=
  (emit EvCreateTable ;; in_transaction create_table_if_not_exists)%py.

(** The column list of line 88-92. *)
Definition schema_columns : list string :=
  [ "modelId"; "author"; "downloads"; "likes"; "pipeline_tag";
    "library_name"; "model_type"; "license"; "private";
    "last_modified"; "is_recent"; "fetch_time" ].

(** The [DO UPDATE SET] list of lines 101-111: [EXCLUDED] is the row proposed
    for insertion.  The list names ten columns; [author] is not among them. *)
Definition on_conflict_do_update (old excluded : Row) : Row :=
  {| author := author old;
     downloads := downloads excluded;
     likes := likes excluded;
     pipeline_tag := pipeline_tag excluded;
     library_name := library_name excluded;
     model_type := model_type excluded;
     license := license excluded;
     private := private excluded;
     last_modified := last_modified excluded;
     is_recent := is_recent excluded;
     fetch_time := fetch_time excluded |}.

(** [INSERT INTO huggingface_models (...) VALUES (...) ON CONFLICT (modelId)
    DO UPDATE SET ...] on one proposed row. *)
Definition insert_on_conflict (key : string) (excluded : Row) (t : Table) : Table :=
  match t !! key with
  | None => <[key := excluded]> t
  | Some old => <[key := on_conflict_do_update old excluded]> t
  end.

(** The twelve [%s] of the statement, each converted to its column type.  The
    primary key admits no [NULL]. *)
Definition bind_params (params : list cell) : result (string * Row) :=
  match params with
  | [p0; p1; p2; p3; p4; p5; p6; p7; p8; p9; p10; p11] =>
      (k <- adapt env TEXT p0 ;;
       v1 <- adapt env TEXT p1 ;;
       v2 <- adapt env INTEGER p2 ;;
       v3 <- adapt env INTEGER p3 ;;
       v4 <- adapt env TEXT p4 ;;
       v5 <- adapt env TEXT p5 ;;
       v6 <- adapt env TEXT p6 ;;
       v7 <- adapt env TEXT p7 ;;
       v8 <- adapt env BOOLEAN p8 ;;
       v9 <- adapt env TIMESTAMP p9 ;;
       v10 <- adapt env BOOLEAN p10 ;;
       v11 <- adapt env TIMESTAMP p11 ;;
       match k with
       | SqlText key => Ok (key, mkRow v1 v2 v3 v4 v5 v6 v7 v8 v9 v10 v11)
       | SqlNull => Raise IntegrityError
       | _ => Raise DataError
       end)%res
  | _ => Raise TypeError
  end.

Definition insert_stmt (params : list cell) (t : option Table) : result (option Table) :=
  match t with
  | None => Raise ProgrammingError
  | Some tbl =>
      (kr <- bind_params params ;;
       Ok (Some (insert_on_conflict (fst kr) (snd kr) tbl)))%res
  end.

Definition execute_insert (params : list cell) : M unit :=
  (emit (EvInsert params) ;; in_transaction (insert_stmt params))%py.

(** [execute_batch(cursor, insert_query, records)]: the statement once per
    parameter list, in order (the driver groups them in pages, which changes
    neither the order nor the statements). *)
Fixpoint execute_batch (argslist : list (list cell)) : M unit :=
  match argslist with
  | [] => ret tt
  | params :: rest => (execute_insert params ;; execute_batch rest)%py
  end.

(** [conn.commit()]: the snapshot becomes what the store holds. *)
Definition commit : M unit :=
  (emit EvCommit ;;
   fun w =>
     match session w with
     | Some s =>
         if is_open s then
           (Ok tt, mkWorld (clock_reads w) (snapshot s) (session w) (trace w))
         else (Raise InterfaceError, w)
     | None => (Raise InterfaceError, w)
     end)%py.

Definition cursor_close : M unit := emit EvCursorClose.

(** [conn.close()]: what was not committed is gone with the connection. *)
Definition close : M unit :=
  (emit EvClose ;;
   fun w =>
     match session w with
     | Some s =>
         (Ok tt,
          mkWorld (clock_reads w) (committed w)
                  (Some (mkSession false (committed w))) (trace w))
     | None => (Raise InterfaceError, w)
     end)%py.

(** The body of the [try] (lines 66-117). *)
Definition load_body (df : DataFrame) : M unit :=
  (connect ;;
   cursor ;;
   execute_create ;;
   sub <- lift (getitems df schema_columns) ;;
   let records := values_tolist sub in
   execute_batch records ;;
   commit ;;
   cursor_close ;;
   close)%py.

(** [except Exception as e: logging.error(...); raise] (lines 120-122). *)
Definition load_to_postgres (df : DataFrame) : M unit :=
  try_except (load_body df) (fun e => raise e).

End Pipeline.


(** ** The frame the transform returns, in closed form *)

(** The frame of a batch whose models are paired with what [pd.to_datetime]
    made of their [lastModified], given the two readings of the clock and the
    flags line 58 computed. *)
Definition framed (env : Env) (filler fetch_time : Z)
    (mls : list (RawRecord * cell)) (flags : Series) : DataFrame :=
  mkDataFrame (length mls)
    [ ("modelname",
        infer_column env (map (fun p => get (fst p) "name" (str "")) mls));
      ("modelId",
        infer_column env (map (fun p => get (fst p) "modelId" (str "")) mls));
      ("author",
        infer_column env
          (map (fun p => get (fst p) "author" (str "unknown")) mls));
      ("downloads",
        infer_column env
          (map (fun p => py_or (get_none (fst p) "downloads") (Obj (JInt 0)))
               mls));
      ("likes",
        infer_column env
          (map (fun p => py_or (get_none (fst p) "likes") (Obj (JInt 0))) mls));
      ("pipeline_tag",
        infer_column env
          (map (fun p => get (fst p) "pipeline_tag" (str "")) mls));
      ("library_name",
        infer_column env
          (map (fun p => get (fst p) "library_name" (str "")) mls));
      ("model_type",
        infer_column env (map (fun p => get (fst p) "model_type" (str "")) mls));
      ("license",
        infer_column env
          (map (fun p => get (fst p) "license" (str "unknown")) mls));
      ("private",
        infer_column env
          (map (fun p => get (fst p) "private" (Obj (JBool false))) mls));
      ("last_modified",
        fillna (infer_column env (map snd mls)) (Timestamp filler));
      ("fetch_time", replicate (length mls) (Timestamp fetch_time));
      ("is_recent", flags) ].

(** The plain case: no record has a [null] or an integer beside a missing
    value, and every [lastModified] is absent, not a date, or a naive
    timestamp.  The timestamp a model then ends up with is the parsed
    [lastModified], or the reading [filler] of the clock when there is
    none. *)
Definition stamp (env : Env) (filler : Z) (model : RawRecord) : Z :=
  match to_datetime env (get model "lastModified" NaT) with
  | Ok (Timestamp t) => t
  | _ => filler
  end.

Definition transformed (env : Env) (filler fetch_time : Z)
    (models : list RawRecord) : DataFrame :=
  mkDataFrame (length models)
    [ ("modelname", map (fun m => get m "name" (str "")) models);
      ("modelId", map (fun m => get m "modelId" (str "")) models);
      ("author", map (fun m => get m "author" (str "unknown")) models);
      ("downloads",
        map (fun m => py_or (get_none m "downloads") (Obj (JInt 0))) models);
      ("likes", map (fun m => py_or (get_none m "likes") (Obj (JInt 0))) models);
      ("pipeline_tag", map (fun m => get m "pipeline_tag" (str "")) models);
      ("library_name", map (fun m => get m "library_name" (str "")) models);
      ("model_type", map (fun m => get m "model_type" (str "")) models);
      ("license", map (fun m => get m "license" (str "unknown")) models);
      ("private", map (fun m => get m "private" (Obj (JBool false))) models);
      ("last_modified", map (fun m => Timestamp (stamp env filler m)) models);
      ("fetch_time", replicate (length models) (Timestamp fetch_time));
      ("is_recent",
        map (fun m =>
               Obj (JBool (stamp env filler m >=? fetch_time - timedelta_days 30)))
            models) ].

(** The clock after [n] more readings. *)
Definition tick (n : nat) (w : World) : World :=
  mkWorld (n + clock_reads w) (committed w) (session w) (trace w).

(** ** The batch as a function of the table *)

(** What [execute_batch] does to the snapshot of the transaction: the rows are
    applied in order, and the first one the store refuses stops the batch. *)
Fixpoint run_batch (env : Env) (t : Table) (argslist : list (list cell))
    : result Table :=
  match argslist with
  | [] => Ok t
  | params :: rest =>
      (kr <- bind_params env params ;;
       run_batch env (insert_on_conflict (fst kr) (snd kr) t) rest)%res
  end.

(** The rows of a batch once their parameters are bound, the rows applied in
    order, and the last row a batch proposes under a key. *)
Fixpoint bind_all (env : Env) (argslist : list (list cell))
    : result (list (string * Row)) :=
  match argslist with
  | [] => Ok []
  | params :: rest =>
      (kr <- bind_params env params ;;
       krs <- bind_all env rest ;;
       Ok (kr :: krs))%res
  end.

Definition apply_rows (t : Table) (krs : list (string * Row)) : Table :=
  fold_left (fun t kr => insert_on_conflict (fst kr) (snd kr) t) krs t.

Fixpoint last_for (key : string) (krs : list (string * Row)) : option Row :=
  match krs with
  | [] => None
  | (k, r) :: rest =>
      match last_for key rest with
      | Some r' => Some r'
      | None => if String.eqb k key then Some r else None
      end
  end.

Definition with_trace (w : World) (evs : list Event) : World :=
  mkWorld (clock_reads w) (committed w) (session w) (trace w ++ evs).

(** The calls every run makes before the first row is written. *)
Definition prologue : list Event := [EvConnect; EvCursor; EvCreateTable].

(** The ways a call of [load_to_postgres] can end: the result it hands to its
    caller and the world it leaves behind. *)
Inductive load_outcome (env : Env) (df : DataFrame) (w : World)
    : result unit -> World -> Prop :=
| connect_failed (e : exn) :
    connect_fault env = Some e ->
    load_outcome env df w (Raise e) (with_trace w [EvConnect])
| create_failed (e : exn) :
    connect_fault env = None ->
    create_fault env = Some e ->
    load_outcome env df w (Raise e)
      (mkWorld (clock_reads w) (committed w)
               (Some (mkSession true (committed w)))
               (trace w ++ prologue))
| selection_failed (e : exn) :
    connect_fault env = None ->
    create_fault env = None ->
    getitems df schema_columns = Raise e ->
    load_outcome env df w (Raise e)
      (mkWorld (clock_reads w) (committed w)
               (Some (mkSession true (Some (ensured (committed w)))))
               (trace w ++ prologue))
| batch_failed (e : exn) (sub : DataFrame) (partial : Table) (n : nat) :
    connect_fault env = None ->
    create_fault env = None ->
    getitems df schema_columns = Ok sub ->
    run_batch env (ensured (committed w)) (values_tolist sub) = Raise e ->
    load_outcome env df w (Raise e)
      (mkWorld (clock_reads w) (committed w)
               (Some (mkSession true (Some partial)))
               (trace w ++ prologue
                  ++ map EvInsert (take n (values_tolist sub))))
| loaded (sub : DataFrame) (final : Table) :
    connect_fault env = None ->
    create_fault env = None ->
    getitems df schema_columns = Ok sub ->
    run_batch env (ensured (committed w)) (values_tolist sub) = Ok final ->
    load_outcome env df w (Ok tt)
      (mkWorld (clock_reads w) (Some final)
               (Some (mkSession false (Some final)))
               (trace w ++ prologue
                  ++ map EvInsert (values_tolist sub)
                  ++ [EvCommit; EvCursorClose; EvClose])).

(** ** A sample environment, for running the definitions *)

(** Integers are what [pd.to_datetime] reads as nanoseconds since the epoch;
    a dict raises and a list gives an array.  This sample parser knows no
    other date: it reads no string. *)
Definition epoch_parse (j : json) : result parsed :=
  match j with
  | JInt n => Ok (Naive n)
  | JDict _ => Raise ValueError
  | JList _ => Ok AsArray
  | _ => Ok NotADate
  end.

Definition is_int (x : cell) : bool :=
  match x with
  | Obj (JInt _) => true
  | _ => false
  end.

Definition is_str (x : cell) : bool :=
  match x with
  | Obj (JStr _) => true
  | _ => false
  end.

Definition is_stamp (x : cell) : bool :=
  match x with
  | Timestamp _ => true
  | _ => false
  end.

Definition present (col : Series) : Series :=
  List.filter (fun x => negb (isna x)) col.

(** A sample inference, after pandas 3: the gaps of a column of strings or of
    integers are [NaN] and the integers floats, the gaps of a column of naive
    timestamps are [NaT], and any other column is left as it is. *)
Definition sample_marker (col : Series) : option cell :=
  match present col with
  | [] => None
  | _ =>
      if forallb is_str (present col) || forallb is_int (present col)
      then Some NaN
      else if forallb is_stamp (present col) then Some NaT
      else None
  end.

Definition sample_int (col : Series) (n : Z) : cell :=
  if forallb is_int (present col) then Float n else Obj (JInt n).

(** [bool] of an array with one element is that element; of any other array
    here, an error. *)
Definition sample_array_flag (fetch_time : Z) (source : json) : result bool :=
  match source with
  | JList [JInt n] => Ok (n >=? fetch_time - timedelta_days 30)
  | _ => Raise ValueError
  end.

(** An adapter that accepts a value only in a column of its own type, with
    the range of a four-byte [INTEGER]. *)
Definition strict_adapt (ty : sqltype) (x : cell) : result sqlval :=
  match x, ty with
  | Obj JNull, _ => Ok SqlNull
  | NaT, _ => Ok SqlNull
  | Obj (JStr s), TEXT => Ok (SqlText s)
  | Obj (JInt n), INTEGER =>
      if (-2147483648 <=? n) && (n <=? 2147483647) then Ok (SqlInteger n)
      else Raise DataError
  | Obj (JBool b), BOOLEAN => Ok (SqlBoolean b)
  | Timestamp t, TIMESTAMP => Ok (SqlTimestamp t)
  | _, _ => Raise ProgrammingError
  end.

(** A clock that starts at [start] and advances by one microsecond per
    reading. *)
Definition ticking (start : Z) (n : nat) : Z := start + 1000 * Z.of_nat n.

(** Nothing fails in the sample environment but what [strict_adapt] refuses. *)
Definition sample_env (start : Z) : Env :=
  mkEnv (ticking start) epoch_parse None None strict_adapt
        sample_marker sample_int sample_array_flag.

Definition fresh_world (stored : option Table) : World :=
  mkWorld 0 stored None [].

(** ** Sample inputs *)

(** 2023-11-14T22:13:20Z, in nanoseconds. *)
Definition t0 : Z := 1700000000000000000.

Definition dict_of (kvs : list (string * json)) : RawRecord := list_to_map kvs.

(** A record that carries nothing but its id. *)
Definition bare_model : RawRecord := dict_of [("modelId", JStr "a/b")].


(** Records modified exactly 30 and 31 days before the second reading of the
    clock [ticking t0], which is the batch's [fetch_time]. *)
Definition boundary_models : list RawRecord :=
  [ dict_of [("modelId", JStr "a/b");
             ("lastModified", JInt (t0 + 1000 - 2592000000000000))];
    dict_of [("modelId", JStr "c/d");
             ("lastModified", JInt (t0 + 1000 - 2678400000000000))] ].

(** A batch whose second record has a [null] id: the first row can be written,
    the second violates the primary key. *)
Definition null_key_models : list RawRecord :=
  [ dict_of [("modelId", JStr "a/b"); ("likes", JInt 5)];
    dict_of [("modelId", JNull); ("likes", JInt 7)] ].

(** One day later than [t0]. *)
Definition t1 : Z := t0 + 86400000000000.

(** The frame of a batch in the plain case, for a clock that starts at
    [start], and the world the transform leaves for the load.  Where a record
    has a [null], this is the frame whose column keeps it as [None]. *)
Definition frame_at (start : Z) (models : list RawRecord) : DataFrame :=
  transformed (sample_env start) start (start + 1000) models.

Definition after_transform (stored : option Table) : World :=
  tick 2 (fresh_world stored).

Definition failed_load_world : World :=
  snd (load_to_postgres (sample_env t0) (frame_at t0 null_key_models)
         (after_transform None)).

(** The same model as seen by two runs: first without an author, a day later
    with one, and with more likes. *)
Definition old_model : RawRecord :=
  dict_of [("modelId", JStr "a/b"); ("likes", JInt 5)].

Definition new_model : RawRecord :=
  dict_of [("modelId", JStr "a/b"); ("author", JStr "alice"); ("likes", JInt 9)].

(** The row the first run stores for [old_model]. *)
Definition old_row : Row :=
  {| author := SqlText "unknown";
     downloads := SqlInteger 0;
     likes := SqlInteger 5;
     pipeline_tag := SqlText "";
     library_name := SqlText "";
     model_type := SqlText "";
     license := SqlText "unknown";
     private := SqlBoolean false;
     last_modified := SqlTimestamp t0;
     is_recent := SqlBoolean true;
     fetch_time := SqlTimestamp (t0 + 1000) |}.

Definition old_table : Table := {[ "a/b" := old_row ]}.

(** The row the second run proposes for [new_model]. *)
Definition new_row : Row :=
  {| author := SqlText "alice";
     downloads := SqlInteger 0;
     likes := SqlInteger 9;
     pipeline_tag := SqlText "";
     library_name := SqlText "";
     model_type := SqlText "";
     license := SqlText "unknown";
     private := SqlBoolean false;
     last_modified := SqlTimestamp t1;
     is_recent := SqlBoolean true;
     fetch_time := SqlTimestamp (t1 + 1000) |}.

(** Two records without [modelId], by different authors. *)
Definition anonymous_models : list RawRecord :=
  [ dict_of [("author", JStr "x"); ("likes", JInt 1)];
    dict_of [("author", JStr "y"); ("likes", JInt 2)] ].

(** The row proposed for the second of them, the last one written. *)
Definition last_anonymous_row : Row :=
  {| author := SqlText "y";
     downloads := SqlInteger 0;
     likes := SqlInteger 2;
     pipeline_tag := SqlText "";
     library_name := SqlText "";
     model_type := SqlText "";
     license := SqlText "unknown";
     private := SqlBoolean false;
     last_modified := SqlTimestamp t0;
     is_recent := SqlBoolean true;
     fetch_time := SqlTimestamp (t0 + 1000) |}.


(** ** Extract and the driver (lines 24-30 and 125-132) *)

(** What [requests.get] hands back: the status and the body, [None] when the
    body is not JSON. *)
Record Response : Type := mkResponse {
  status_code : Z;
  json_body : option json
}.

(** The network: the answer to a GET of a URL with its query parameters,
    [None] when the call cannot be completed. *)
Record Net : Type := mkNet {
  http_get : string -> list (string * Z) -> option Response
}.

(** What can stop a run: the exceptions of the transform and of the load, and
    those of the request and of a body that is not made of records. *)
Inductive failure : Type :=
| Exception (e : exn)
| RequestException
| HTTPError (status : Z)
| JSONDecodeError
| AttributeError.

Inductive outcome (A : Type) : Type :=
| Done (a : A)
| Failed (f : failure).
Arguments Done {A} a.
Arguments Failed {A} f.

(** [response.raise_for_status()]: client and server errors raise. *)
Definition raise_for_status (response : Response) : outcome unit :=
  if (400 <=? status_code response) && (status_code response <? 600)
  then Failed (HTTPError (status_code response))
  else Done tt.

(** The endpoint, as line 26 spells it. *)
Definition api_url : string := "https://huggingfacgit e.co/api/models".

Definition fetch_huggingface_models (net : Net) (limit : Z) : outcome json :=
  match http_get net api_url [("limit", limit)] with
  | None => Failed RequestException
  | Some response =>
      match raise_for_status response with
      | Failed f => Failed f
      | Done _ =>
          match json_body response with
          | Some j => Done j
          | None => Failed JSONDecodeError
          end
      end
  end.

(** [for model in models]: a list yields its elements, a dict its keys, a
    string its characters; nothing else can be iterated. *)
Definition iterate (models : json) : outcome (list json) :=
  match models with
  | JList xs => Done xs
  | JDict kvs => Done (map (fun kv => JStr (fst kv)) kvs)
  | JStr s =>
      Done (map (fun c => JStr (String c EmptyString))
                (String.list_ascii_of_string s))
  | _ => Failed (Exception TypeError)
  end.

(** [model.get]: only a dict has it.  A key that occurs twice in the body
    keeps its last value. *)
Definition as_dict (model : json) : outcome RawRecord :=
  match model with
  | JDict kvs => Done (list_to_map (rev kvs))
  | _ => Failed AttributeError
  end.

(** The elements as dicts, when every one of them is an object. *)
Fixpoint as_dicts (models : list json) : outcome (list RawRecord) :=
  match models with
  | [] => Done []
  | model :: rest =>
      match as_dict model with
      | Failed f => Failed f
      | Done m =>
          match as_dicts rest with
          | Failed f => Failed f
          | Done ms => Done (m :: ms)
          end
      end
  end.

(** The list comprehension of lines 36-48 on the elements of the body: each
    element in turn must have [.get] and its [lastModified] must pass
    [pd.to_datetime] before the next element is looked at, so the first
    exception in that order stops the run. *)
Fixpoint comprehension_json (env : Env) (elements : list json)
    : outcome (list pydict) :=
  match elements with
  | [] => Done []
  | element :: rest =>
      match as_dict element with
      | Failed f => Failed f
      | Done model =>
          match model_dict env model with
          | Raise e => Failed (Exception e)
          | Ok d =>
              match comprehension_json env rest with
              | Failed f => Failed f
              | Done ds => Done (d :: ds)
              end
          end
      end
  end.

(** [transform_models_data] on whatever [response.json()] returned. *)
Definition transform_json (env : Env) (models : json)
    : World -> outcome DataFrame * World :=
  fun w =>
    match iterate models with
    | Failed f => (Failed f, w)
    | Done elements =>
        match comprehension_json env elements with
        | Failed f => (Failed f, w)
        | Done dicts =>
            match finish_frame env (DataFrame_of_dicts env dicts) w with
            | (Ok df, w') => (Done df, w')
            | (Raise e, w') => (Failed (Exception e), w')
            end
        end
    end.

(** The last line the driver logs: success, or the exception it caught. *)
Inductive verdict : Type :=
| Completed
| RunFailed (f : failure).

(** The block under [if __name__ == "__main__"] (lines 125-132): the three
    stages in sequence; any exception is caught and logged, none leaves the
    script. *)
Definition main (net : Net) (env : Env) : World -> verdict * World :=
  fun w =>
    match fetch_huggingface_models net 500 with
    | Failed f => (RunFailed f, w)
    | Done models =>
        match transform_json env models w with
        | (Failed f, w1) => (RunFailed f, w1)
        | (Done df, w1) =>
            match load_to_postgres env df w1 with
            | (Raise e, w2) => (RunFailed (Exception e), w2)
            | (Ok _, w2) => (Completed, w2)
            end
        end
    end.

(** ** Tables read off the transform *)

(** The columns [model_dict] fills by [model.get(key) or 0] (lines 40-41). *)
Definition counter_columns : list string := ["downloads"; "likes"].

(** The columns filled by a plain [model.get(key, default)] that are not
    string fields of the row: column, key read, default (lines 37, 38, 46). *)
Definition plain_defaults : list (string * string * cell) :=
  [ ("modelname", "name", Obj (JStr ""));
    ("modelId", "modelId", Obj (JStr ""));
    ("private", "private", Obj (JBool false)) ].

(** The keys [model_dict] reads of a record. *)
Definition keys_read : list string :=
  [ "name"; "modelId"; "author"; "downloads"; "likes"; "pipeline_tag";
    "library_name"; "model_type"; "license"; "private"; "lastModified" ].

(** The labels of the frame the transform returns, in order. *)
Definition frame_columns : list string :=
  [ "modelname"; "modelId"; "author"; "downloads"; "likes"; "pipeline_tag";
    "library_name"; "model_type"; "license"; "private"; "last_modified";
    "fetch_time"; "is_recent" ].

(** ** More sample inputs *)

(** Counters that are falsy without being absent, and one that is negative. *)
Definition odd_counters_model : RawRecord :=
  dict_of [("modelId", JStr "a/b"); ("downloads", JStr ""); ("likes", JInt (-3))].

(** A record whose [private] is a string. *)
Definition odd_private_model : RawRecord :=
  dict_of [("modelId", JStr "a/b"); ("private", JStr "yes")].

(** A record with a date that parses, and the same record with a field the
    transform does not read. *)
Definition dated_model : RawRecord :=
  dict_of [("modelId", JStr "a/b"); ("lastModified", JInt 1600000000000000000)].

Definition tagged_model : RawRecord :=
  dict_of [("modelId", JStr "a/b"); ("lastModified", JInt 1600000000000000000);
           ("tags", JList [JStr "nlp"])].

(** The frame a run of the transform returns. *)
Definition frame_of (env : Env) (models : list RawRecord) (w : World)
    : DataFrame :=
  match transform_models_data env models w with
  | (Ok df, _) => df
  | (Raise _, _) => mkDataFrame 0 []
  end.



(** A record whose [lastModified] is a list of one date. *)
Definition listed_model : RawRecord :=
  dict_of [("modelId", JStr "a/b");
           ("lastModified", JList [JInt 1600000000000000000])].

(** The sample environment with a server that refuses the connection. *)
Definition refusing_env : Env :=
  mkEnv (ticking t0) epoch_parse (Some OperationalError) None strict_adapt
        sample_marker sample_int sample_array_flag.

(** The world a load leaves behind. *)
Definition world_after_load (env : Env) (df : DataFrame) (w : World) : World :=
  snd (load_to_postgres env df w).

(** The frame built from [bare_model] before the transform adds [fetch_time]
    and [is_recent]. *)
Definition unfinished_frame : DataFrame :=
  DataFrame_of_dicts (sample_env t0) [row_dict bare_model NaT].

(** A frame with the twelve columns of the schema and no row. *)
Definition rowless_frame : DataFrame :=
  mkDataFrame 0 (map (fun c => (c, [])) schema_columns).

(** A model the earlier run did not see, and the row bound for it by the run
    that starts at [t1]. *)
Definition other_model : RawRecord := dict_of [("modelId", JStr "c/d")].

Definition other_row : Row :=
  {| author := SqlText "unknown";
     downloads := SqlInteger 0;
     likes := SqlInteger 0;
     pipeline_tag := SqlText "";
     library_name := SqlText "";
     model_type := SqlText "";
     license := SqlText "unknown";
     private := SqlBoolean false;
     last_modified := SqlTimestamp t1;
     is_recent := SqlBoolean true;
     fetch_time := SqlTimestamp (t1 + 1000) |}.

(** A network that answers every request with the given status and body. *)
Definition answering (status : Z) (body : option json) : Net :=
  mkNet (fun _ _ => Some (mkResponse status body)).

(** A body of two records, and one whose second element is not a record. *)
Definition two_records : json :=
  JList [ JDict [("modelId", JStr "a/b"); ("likes", JInt 5)];
          JDict [("modelId", JStr "c/d")] ].

Definition broken_records : json :=
  JList [ JDict [("modelId", JStr "a/b"); ("likes", JInt 5)];
          JStr "c/d" ].

(** The sub-frame the load selects, when the frame has the columns. *)
Definition schema_part (df : DataFrame) : DataFrame :=
  match getitems df schema_columns with
  | Ok sub => sub
  | Raise _ => df
  end.

(** The world after a run over [two_records] against a store without the
    table. *)
Definition completed_world : World :=
  snd (main (answering 200 (Some two_records)) (sample_env t0)
            (fresh_world None)).

(** ** Properties of the transform *)

(** Closed goals about the sample inputs are settled by running the
    definitions. *)
Ltac evaluate := vm_compute; reflexivity.

Section TransformFacts.

Context (env : Env).

Lemma lookup_map {A B : Type} (f : A -> B) (l : list A) (i : nat) :
  map f l !! i = f <$> l !! i.
Proof.
  revert i. induction l as [|a l IH]; intros [|i]; cbn; auto.
Qed.

(** *** The comprehension *)

Lemma comprehension_inv (models : list RawRecord) (dicts : list pydict) :
  comprehension env models = Ok dicts ->
  exists mls : list (RawRecord * cell),
    map fst mls = models /\
    Forall (fun p => to_datetime env (get (fst p) "lastModified" NaT)
                     = Ok (snd p)) mls /\
    dicts = map (fun p => row_dict (fst p) (snd p)) mls.
Proof.
  revert dicts. induction models as [|m ms IH]; intros dicts; cbn [comprehension].
  - intros [= <-]. exists []. repeat split. constructor.
  - unfold model_dict.
    destruct (to_datetime env (get m "lastModified" NaT)) as [lm|e] eqn:Hlm;
      [|discriminate].
    cbn [bind_result].
    destruct (comprehension env ms) as [ds|e]; [|discriminate].
    cbn [bind_result]. intros [= <-].
    destruct (IH ds eq_refl) as (mls & Hfst & Hall & ->).
    exists ((m, lm) :: mls). cbn. rewrite Hfst.
    repeat split. constructor; assumption.
Qed.

Lemma comprehension_same (models models' : list RawRecord) :
  Forall2 (fun m m' => model_dict env m = model_dict env m') models models' ->
  comprehension env models = comprehension env models'.
Proof.
  induction 1 as [|m m' ms ms' Hm _ IH]; [reflexivity|].
  cbn [comprehension]. rewrite Hm, IH. reflexivity.
Qed.

Lemma frame_labels_row_dicts (mls : list (RawRecord * cell)) :
  mls <> [] ->
  frame_labels (map (fun p => row_dict (fst p) (snd p)) mls)
  = [ "modelname"; "modelId"; "author"; "downloads"; "likes"; "pipeline_tag";
      "library_name"; "model_type"; "license"; "private"; "last_modified" ].
Proof.
  destruct mls as [|p ps]; [congruence|intros _].
  unfold frame_labels. cbn [map fold_left].
  change (add_labels [] (map fst (row_dict (fst p) (snd p))))
    with [ "modelname"; "modelId"; "author"; "downloads"; "likes";
           "pipeline_tag"; "library_name"; "model_type"; "license";
           "private"; "last_modified" ].
  induction ps as [|p' ps IH]; [reflexivity|].
  cbn [map fold_left]. exact IH.
Qed.

Lemma mls_lookup (mls : list (RawRecord * cell)) (models : list RawRecord)
    (i : nat) (m : RawRecord) :
  map fst mls = models ->
  models !! i = Some m ->
  exists lm, mls !! i = Some (m, lm).
Proof.
  intros <-. rewrite lookup_map.
  destruct (mls !! i) as [[m' lm]|]; [|discriminate].
  intros [= <-]. eauto.
Qed.

(** *** The inference on a column *)

Lemma length_infer_column (col : Series) :
  length (infer_column env col) = length col.
Proof.
  unfold infer_column. destruct (forallb _ col); [reflexivity|].
  apply length_map.
Qed.

Lemma infer_column_no_gaps (col : Series) :
  (forall x, In x col -> isna x = false) ->
  infer_column env col = col.
Proof.
  intros H. unfold infer_column.
  replace (forallb (fun x => negb (isna x)) col) with true; [reflexivity|].
  symmetry. apply forallb_forall. intros x Hx. rewrite (H x Hx). reflexivity.
Qed.

Lemma infer_column_lookup (col : Series) (i : nat) (x : cell) :
  col !! i = Some x ->
  infer_column env col !! i = Some x \/
  infer_column env col !! i = Some (infer_cell env col x).
Proof.
  intros Hx. unfold infer_column. destruct (forallb _ col); [left; exact Hx|].
  right. rewrite lookup_map, Hx. reflexivity.
Qed.

(** A cell that is neither missing nor an integer is kept. *)
Lemma infer_column_keeps (col : Series) (i : nat) (x : cell) :
  col !! i = Some x ->
  isna x = false ->
  is_int x = false ->
  infer_column env col !! i = Some x.
Proof.
  intros Hx Hna Hint.
  destruct (infer_column_lookup col i x Hx) as [H|H]; [exact H|].
  rewrite H. f_equal. unfold infer_cell. rewrite Hna.
  destruct x as [[]| | | | | |]; try reflexivity; discriminate.
Qed.

(** A missing value stays missing. *)
Lemma infer_column_missing (col : Series) (i : nat) (x : cell) :
  col !! i = Some x ->
  isna x = true ->
  exists y, infer_column env col !! i = Some y /\ isna y = true.
Proof.
  intros Hx Hna.
  destruct (infer_column_lookup col i x Hx) as [H|H]; [eauto|].
  eexists. split; [exact H|].
  unfold infer_cell. rewrite Hna.
  destruct (missing_marker env col) as [marker|]; [|exact Hna].
  destruct (isna marker) eqn:Hm; [exact Hm | exact Hna].
Qed.

(** *** Line 58 *)

Lemma series_apply_inv (f : cell -> result cell) (s flags : Series) :
  series_apply f s = Ok flags ->
  length flags = length s /\
  forall i x, s !! i = Some x ->
    exists y, f x = Ok y /\ flags !! i = Some y.
Proof.
  revert flags. induction s as [|x s IH]; intros flags; cbn [series_apply].
  - intros [= <-]. split; [reflexivity|]. intros i y Hi. destruct i; discriminate.
  - destruct (f x) as [y|e] eqn:Hfx; [|discriminate].
    destruct (series_apply f s) as [ys|e]; [|discriminate].
    intros [= <-]. destruct (IH ys eq_refl) as [Hlen Hall].
    split; [cbn; f_equal; exact Hlen|].
    intros [|i] z Hz; cbn in Hz.
    + injection Hz as <-. eauto.
    + apply Hall, Hz.
Qed.

Lemma recent_flag_ok (ft : Z) (x y : cell) :
  recent_flag env ft x = Ok y ->
  exists b, y = Obj (JBool b) /\
    ((exists t, x = Timestamp t /\ b = (t >=? ft - timedelta_days 30)) \/
     (exists source, x = Array source /\ array_flag env ft source = Ok b) \/
     (x = NaT /\ b = false)).
Proof.
  destruct x as [j|t|t|source|n| |]; cbn [recent_flag]; try discriminate.
  - intros [= <-]. eauto 10.
  - destruct (array_flag env ft source) as [b|e] eqn:Hb; [|discriminate].
    intros [= <-]. eauto 10.
  - intros [= <-]. eauto 10.
Qed.

Lemma fillna_lookup (s : Series) (value : cell) (i : nat) (x : cell) :
  s !! i = Some x ->
  fillna s value !! i = Some (if isna x then value else x).
Proof. intros H. unfold fillna. rewrite lookup_map, H. reflexivity. Qed.

(** *** The transform as a whole *)

Lemma finish_frame_row_dicts (mls : list (RawRecord * cell)) (w : World) :
  mls <> [] ->
  finish_frame env
    (DataFrame_of_dicts env (map (fun p => row_dict (fst p) (snd p)) mls)) w
  = match series_apply (recent_flag env (wall_clock env (S (clock_reads w))))
            (fillna (infer_column env (map snd mls))
                    (Timestamp (wall_clock env (clock_reads w)))) with
    | Ok flags =>
        (Ok (framed env (wall_clock env (clock_reads w))
                    (wall_clock env (S (clock_reads w))) mls flags),
         tick 2 w)
    | Raise e => (Raise e, tick 2 w)
    end.
Proof.
  intros Hne.
  unfold finish_frame, DataFrame_of_dicts.
  rewrite (frame_labels_row_dicts mls Hne).
  cbn [map]. rewrite !map_map.
  cbn -[infer_column get py_or get_none wall_clock fillna series_apply
        recent_flag].
  destruct (series_apply _ _) as [flags|e]; [|reflexivity].
  unfold framed, tick, ret, setitem, setitem_scalar.
  cbn -[infer_column get py_or get_none wall_clock fillna].
  rewrite length_map. reflexivity.
Qed.

Lemma transform_empty (w : World) :
  transform_models_data env [] w = (Raise (KeyError "last_modified"), w).
Proof. reflexivity. Qed.

Lemma transform_inv (models : list RawRecord) (w w' : World) (df : DataFrame) :
  transform_models_data env models w = (Ok df, w') ->
  exists mls flags,
    map fst mls = models /\
    models <> [] /\
    Forall (fun p => to_datetime env (get (fst p) "lastModified" NaT)
                     = Ok (snd p)) mls /\
    series_apply (recent_flag env (wall_clock env (S (clock_reads w))))
      (fillna (infer_column env (map snd mls))
              (Timestamp (wall_clock env (clock_reads w))))
    = Ok flags /\
    df = framed env (wall_clock env (clock_reads w))
                (wall_clock env (S (clock_reads w))) mls flags /\
    w' = tick 2 w.
Proof.
  unfold transform_models_data, bind, lift.
  destruct (comprehension env models) as [dicts|e] eqn:Hc; [|discriminate].
  destruct (comprehension_inv _ _ Hc) as (mls & Hfst & Hall & ->).
  destruct mls as [|p ps].
  - cbn. discriminate.
  - rewrite finish_frame_row_dicts by discriminate.
    destruct (series_apply _ _) as [flags|e] eqn:Hflags; [|discriminate].
    intros [= <- <-]. exists (p :: ps), flags.
    split; [exact Hfst|]. split; [rewrite <- Hfst; discriminate|].
    split; [exact Hall|]. split; [exact Hflags|]. split; reflexivity.
Qed.

(** Whatever the transform does, it leaves the world as it was or two
    readings of the clock later. *)
Lemma transform_world (models : list RawRecord) (w w' : World)
    (r : result DataFrame) :
  transform_models_data env models w = (r, w') ->
  (w' = w /\ exists e, r = Raise e) \/ w' = tick 2 w.
Proof.
  unfold transform_models_data, bind, lift.
  destruct (comprehension env models) as [dicts|e] eqn:Hc.
  - destruct (comprehension_inv _ _ Hc) as (mls & Hfst & Hall & ->).
    destruct mls as [|p ps].
    + cbn. intros [= <- <-]. left. eauto.
    + rewrite finish_frame_row_dicts by discriminate.
      destruct (series_apply _ _); intros [= <- <-]; right; reflexivity.
  - intros [= <- <-]. left. eauto.
Qed.

End TransformFacts.

Ltac framed_at :=
  unfold at_; cbn [framed df_columns assoc String.eqb Ascii.eqb Bool.eqb].

Section TransformRows.

Context (env : Env).

Lemma py_or_zero_present (a : cell) :
  (exists j, a = Obj j) ->
  isna (py_or a (Obj (JInt 0))) = false.
Proof.
  intros [j ->]. unfold py_or.
  destruct (truthy j) eqn:Ht; [|reflexivity].
  destruct j; try reflexivity. discriminate.
Qed.

(** One output row per input record, in the order of the input: row [i] is
    built from [models !! i], and a string under [modelId] is that row's
    key. *)
Lemma transform_rows_follow_input
    (models : list RawRecord) (w w' : World) (df : DataFrame) :
  transform_models_data env models w = (Ok df, w') ->
  df_len df = length models /\
  forall i m s, models !! i = Some m ->
    m !! "modelId" = Some (JStr s) ->
    at_ df i "modelId" = Some (Obj (JStr s)).
Proof.
  intros Hrun.
  destruct (transform_inv env _ _ _ _ Hrun)
    as (mls & flags & Hfst & _ & _ & _ & -> & _).
  split; [cbn; rewrite <- Hfst; symmetry; apply length_map|].
  intros i m s Hm Hs. destruct (mls_lookup _ _ _ _ Hfst Hm) as [lm Hlm].
  framed_at. apply infer_column_keeps; [|reflexivity|reflexivity].
  rewrite lookup_map, Hlm. cbn. unfold get. rewrite Hs. reflexivity.
Qed.

(** A record without [modelId] gets the empty string as its key. *)
Lemma missing_model_id_gets_empty_key
    (models : list RawRecord) (w w' : World) (df : DataFrame)
    (i : nat) (m : RawRecord) :
  transform_models_data env models w = (Ok df, w') ->
  models !! i = Some m ->
  m !! "modelId" = None ->
  at_ df i "modelId" = Some (Obj (JStr "")).
Proof.
  intros Hrun Hm Hnone.
  destruct (transform_inv env _ _ _ _ Hrun)
    as (mls & flags & Hfst & _ & _ & _ & -> & _).
  destruct (mls_lookup _ _ _ _ Hfst Hm) as [lm Hlm].
  framed_at. apply infer_column_keeps; [|reflexivity|reflexivity].
  rewrite lookup_map, Hlm. cbn. unfold get. rewrite Hnone. reflexivity.
Qed.

(** What a row holds under [last_modified], [fetch_time] and [is_recent]. *)
Lemma framed_time_cells (filler ft : Z) (mls : list (RawRecord * cell))
    (flags : Series) (i : nat) (m : RawRecord) (lm : cell) :
  series_apply (recent_flag env ft)
    (fillna (infer_column env (map snd mls)) (Timestamp filler)) = Ok flags ->
  mls !! i = Some (m, lm) ->
  exists y b,
    infer_column env (map snd mls) !! i = Some y /\
    (isna lm = true -> isna y = true) /\
    (isna lm = false -> is_int lm = false -> y = lm) /\
    at_ (framed env filler ft mls flags) i "last_modified"
    = Some (if isna y then Timestamp filler else y) /\
    at_ (framed env filler ft mls flags) i "fetch_time" = Some (Timestamp ft) /\
    at_ (framed env filler ft mls flags) i "is_recent" = Some (Obj (JBool b)) /\
    recent_flag env ft (if isna y then Timestamp filler else y)
    = Ok (Obj (JBool b)).
Proof.
  intros Hflags Hlm.
  assert (Hraw : map snd mls !! i = Some lm)
    by (rewrite lookup_map, Hlm; reflexivity).
  assert (Hy : exists y, infer_column env (map snd mls) !! i = Some y).
  { apply lookup_lt_is_Some_2. rewrite length_infer_column.
    eapply lookup_lt_Some; eauto. }
  destruct Hy as [y Hy].
  destruct (series_apply_inv _ _ _ Hflags) as [_ Hall].
  destruct (Hall i _ (fillna_lookup _ _ _ _ Hy)) as (z & Hz & Hzi).
  destruct (recent_flag_ok env _ _ _ Hz) as (b & -> & _).
  exists y, b. split; [exact Hy|]. split; [|split].
  - intros Hna. destruct (infer_column_missing env _ _ _ Hraw Hna)
      as (y' & Hy' & Hna'). congruence.
  - intros Hna Hint.
    pose proof (infer_column_keeps env _ _ _ Hraw Hna Hint). congruence.
  - framed_at. split; [apply fillna_lookup, Hy|].
    split; [apply lookup_replicate_2; eapply lookup_lt_Some; eauto|].
    split; [exact Hzi | exact Hz].
Qed.

(** C3. For the empty batch the Normalizer does not return: the frame built
    from no record has no column, and reading its [last_modified] column
    (line 51) raises [KeyError] before anything else happens. *)
Theorem normalizer_raises_on_empty_batch (w : World) :
  transform_models_data env [] w = (Raise (KeyError "last_modified"), w).
Proof. reflexivity. Qed.




End TransformRows.






(** ** Properties of the load *)

Section LoadFacts.

Context (env : Env).

Lemma execute_batch_run (argslist : list (list cell)) (w : World) (t : Table) :
  session w = Some (mkSession true (Some t)) ->
  exists w' t' n,
    execute_batch env argslist w
    = (match run_batch env t argslist with
       | Ok _ => Ok tt
       | Raise e => Raise e
       end, w') /\
    clock_reads w' = clock_reads w /\
    committed w' = committed w /\
    session w' = Some (mkSession true (Some t')) /\
    trace w' = trace w ++ map EvInsert (take n argslist) /\
    (forall t'', run_batch env t argslist = Ok t'' ->
                 t' = t'' /\ take n argslist = argslist).
Proof.
  revert w t. induction argslist as [|params rest IH]; intros w t Hs.
  - exists w, t, 0%nat. cbn. rewrite app_nil_r.
    repeat split; auto; congruence.
  - cbn [execute_batch run_batch].
    unfold bind at 1, execute_insert, bind, emit, in_transaction. cbn.
    rewrite Hs. cbn. unfold insert_stmt, bind_result at 1.
    destruct (bind_params env params) as [[k r]|e]; cbn.
    + edestruct (IH (mkWorld (clock_reads w) (committed w)
                       (Some (mkSession true (Some (insert_on_conflict k r t))))
                       (trace w ++ [EvInsert params]))
                    (insert_on_conflict k r t) eq_refl)
        as (w' & t' & n & Hrun & Hc & Hd & Hsess & Htr & Hok).
      exists w', t', (S n). cbn in *.
      rewrite Hrun, Htr, <- app_assoc. cbn.
      repeat split; auto.
      * eapply Hok; eassumption.
      * f_equal. eapply Hok; eassumption.
    + eexists _, t, 1%nat. cbn. rewrite take_0.
      repeat split; auto; discriminate.
Qed.

Lemma load_to_postgres_outcome (df : DataFrame) (w : World) :
  load_outcome env df w (fst (load_to_postgres env df w))
                        (snd (load_to_postgres env df w)).
Proof.
  unfold load_to_postgres, try_except, load_body, bind, connect, cursor,
    execute_create, emit, in_transaction, create_table_if_not_exists, lift,
    raise.
  destruct (connect_fault env) as [e|] eqn:Hconn.
  { cbn. apply connect_failed, Hconn. }
  cbn -[execute_batch getitems values_tolist commit cursor_close close].
  destruct (create_fault env) as [e|] eqn:Hcreate.
  { cbn. rewrite <- !app_assoc. apply (create_failed _ _ _ _ Hconn Hcreate). }
  destruct (getitems df schema_columns) as [sub|e] eqn:Hsel.
  2:{ cbn. rewrite <- !app_assoc. apply (selection_failed _ _ _ _ Hconn Hcreate Hsel). }
  edestruct (execute_batch_run (values_tolist sub)
               (mkWorld (clock_reads w) (committed w)
                  (Some (mkSession true (Some (ensured (committed w)))))
                  (((trace w ++ [EvConnect]) ++ [EvCursor]) ++ [EvCreateTable]))
               (ensured (committed w)) eq_refl)
    as (w' & t' & n & Hrun & Hclock & Hcomm & Hsess & Htr & Hok).
  rewrite Hrun. destruct w' as [c d s tr]. cbn in Hclock, Hcomm, Hsess, Htr.
  subst c d s tr.
  destruct (run_batch env (ensured (committed w)) (values_tolist sub))
    as [final|e] eqn:Hbatch.
  - destruct (Hok final eq_refl) as [-> Htake]. rewrite Htake.
    unfold commit, cursor_close, close, bind, emit. cbn.
    rewrite <- !app_assoc. cbn.
    apply (loaded _ _ _ _ _ Hconn Hcreate Hsel Hbatch).
  - cbn. rewrite <- !app_assoc. cbn.
    apply (batch_failed _ _ _ _ _ t' n Hconn Hcreate Hsel Hbatch).
Qed.

Lemma load_to_postgres_inv (df : DataFrame) (w w' : World) (r : result unit) :
  load_to_postgres env df w = (r, w') -> load_outcome env df w r w'.
Proof.
  intros H. pose proof (load_to_postgres_outcome df w) as Hout.
  rewrite H in Hout. exact Hout.
Qed.

Lemma run_batch_raise_inv (t : Table) (argslist : list (list cell)) (e : exn) :
  run_batch env t argslist = Raise e ->
  exists params, In params argslist /\ bind_params env params = Raise e.
Proof.
  revert t. induction argslist as [|p rest IH]; intros t; cbn [run_batch].
  - discriminate.
  - destruct (bind_params env p) as [[k r]|e'] eqn:Hp; cbn.
    + intros H. destruct (IH _ H) as (q & Hq & Hraise).
      exists q. split; [right; exact Hq | exact Hraise].
    + intros [= ->]. exists p. split; [left; reflexivity | exact Hp].
Qed.

Lemma run_batch_refused_row (t : Table) (argslist : list (list cell))
    (params : list cell) (e : exn) :
  In params argslist ->
  bind_params env params = Raise e ->
  exists e', run_batch env t argslist = Raise e'.
Proof.
  revert t. induction argslist as [|p rest IH]; intros t Hin Hraise.
  - destruct Hin.
  - cbn [run_batch].
    destruct (bind_params env p) as [[k r]|e'] eqn:Hp; cbn.
    + destruct Hin as [->|Hin]; [congruence|]. apply IH; assumption.
    + eauto.
Qed.

Lemma no_commit_among_inserts (l : list (list cell)) :
  ~ In EvCommit (prologue ++ map EvInsert l).
Proof.
  intros H. apply in_app_or in H as [H|H].
  - cbn in H. intuition discriminate.
  - apply in_map_iff in H as (x & Hx & _). discriminate.
Qed.

Lemma no_close_among_inserts (l : list (list cell)) :
  ~ In EvClose (prologue ++ map EvInsert l).
Proof.
  intros H. apply in_app_or in H as [H|H].
  - cbn in H. intuition discriminate.
  - apply in_map_iff in H as (x & Hx & _). discriminate.
Qed.


(** A successful call closes the connection. *)
Lemma success_closes_session (df : DataFrame) (w w' : World) :
  load_to_postgres env df w = (Ok tt, w') ->
  exists s, session w' = Some s /\ is_open s = false.
Proof.
  intros Hrun. apply load_to_postgres_inv in Hrun.
  inversion Hrun; subst. eauto.
Qed.

(** C7. The commit is issued only after every row of the batch has been
    submitted.  When the connection, the schema statement or a row write
    fails, the exception of that failure is what the caller gets, no commit
    is issued and the store holds what it held before the call. *)
Theorem load_commits_all_or_nothing
    (df : DataFrame) (w w' : World) (r : result unit) :
  load_to_postgres env df w = (r, w') ->
  (forall e, r = Raise e ->
     committed w' = committed w /\
     exists evs, trace w' = trace w ++ evs /\ ~ In EvCommit evs) /\
  (r = Ok tt ->
     exists sub final,
       getitems df schema_columns = Ok sub /\
       run_batch env (ensured (committed w)) (values_tolist sub) = Ok final /\
       committed w' = Some final /\
       trace w' = trace w ++ prologue ++ map EvInsert (values_tolist sub)
                    ++ [EvCommit; EvCursorClose; EvClose]) /\
  (forall e, connect_fault env = Some e -> r = Raise e) /\
  (forall e, connect_fault env = None -> create_fault env = Some e ->
     r = Raise e) /\
  (forall sub params e,
     connect_fault env = None -> create_fault env = None ->
     getitems df schema_columns = Ok sub ->
     In params (values_tolist sub) ->
     bind_params env params = Raise e ->
     exists params' e',
       In params' (values_tolist sub) /\
       bind_params env params' = Raise e' /\
       r = Raise e').
Proof.
  intros Hrun. apply load_to_postgres_inv in Hrun.
  split; [|split; [|split; [|split]]].
  - intros e ->. inversion Hrun; subst; cbn.
    + split; [reflexivity|]. eexists. split; [reflexivity|].
      cbn. intuition discriminate.
    + split; [reflexivity|]. exists prologue. split; [reflexivity|].
      cbn. intuition discriminate.
    + split; [reflexivity|]. exists prologue. split; [reflexivity|].
      cbn. intuition discriminate.
    + split; [reflexivity|]. eexists. split; [reflexivity|].
      apply no_commit_among_inserts.
  - intros ->. inversion Hrun; subst; cbn. eauto 10.
  - intros e He. inversion Hrun; subst; congruence.
  - intros e Hc He. inversion Hrun; subst; congruence.
  - intros sub params e Hc Hcr Hsel Hin Hraise.
    destruct (run_batch_refused_row (ensured (committed w)) _ _ _ Hin Hraise)
      as [e' He'].
    destruct (run_batch_raise_inv _ _ _ He') as (q & Hq & Hqe).
    exists q, e'. split; [exact Hq|]. split; [exact Hqe|].
    inversion Hrun; subst; congruence.
Qed.

(** C4. The connection is not closed on the failure path.  Whenever the call
    fails after the connection was made (in the schema statement, in the
    selection of the columns or in a row write), the exception reaches the
    caller while the connection is still open, and no [conn.close()] was
    issued: line 117 is on the success path only, and the [except] block
    only logs and re-raises. *)
Theorem connection_left_open_on_failure
    (df : DataFrame) (w w' : World) (e : exn) :
  connect_fault env = None ->
  load_to_postgres env df w = (Raise e, w') ->
  (exists s, session w' = Some s /\ is_open s = true) /\
  exists evs,
    trace w' = trace w ++ evs /\ In EvConnect evs /\ ~ In EvClose evs.
Proof.
  intros Hconn Hrun. apply load_to_postgres_inv in Hrun.
  inversion Hrun; subst; try congruence.
  - split; [eauto|]. exists prologue. split; [reflexivity|].
    cbn. intuition discriminate.
  - split; [eauto|]. exists prologue. split; [reflexivity|].
    cbn. intuition discriminate.
  - split; [eauto|]. eexists. split; [reflexivity|].
    split; [cbn; auto | apply no_close_among_inserts].
Qed.

End LoadFacts.

(** C7 at a batch whose second row is refused (its key is [NULL]): the first
    row had been written inside the transaction, yet the store, which did not
    even hold the table, is as before. *)
Lemma load_commits_all_or_nothing_witness :
  load_to_postgres (sample_env t0) (frame_at t0 null_key_models)
                   (after_transform None)
  = (Raise IntegrityError, failed_load_world) /\
  committed failed_load_world = None /\
  exists evs,
    trace failed_load_world = trace (after_transform None) ++ evs /\
    ~ In EvCommit evs.
Proof.
  assert (H : load_to_postgres (sample_env t0) (frame_at t0 null_key_models)
                (after_transform None)
              = (Raise IntegrityError, failed_load_world))
    by (evaluate).
  split; [exact H|].
  destruct (load_commits_all_or_nothing (sample_env t0) _ _ _ _ H)
    as (Hfail & _).
  exact (Hfail IntegrityError eq_refl).
Defined.


(** C4 at a frame whose second row has [None] as its key: the first row is
    written, the second violates the primary key, and the caller gets
    [IntegrityError] with the connection open and no [close] issued. *)
Lemma connection_left_open_on_failure_witness :
  connect_fault (sample_env t0) = None /\
  load_to_postgres (sample_env t0) (frame_at t0 null_key_models)
                   (after_transform None)
  = (Raise IntegrityError, failed_load_world) /\
  at_ (frame_at t0 null_key_models) 1 "modelId" = Some (Obj JNull) /\
  (exists s, session failed_load_world = Some s /\ is_open s = true) /\
  exists evs,
    trace failed_load_world = trace (after_transform None) ++ evs /\
    In EvConnect evs /\ ~ In EvClose evs.
Proof.
  assert (Hrun : load_to_postgres (sample_env t0)
                   (frame_at t0 null_key_models) (after_transform None)
                 = (Raise IntegrityError, failed_load_world))
    by evaluate.
  split; [reflexivity|]. split; [exact Hrun|]. split; [evaluate|].
  exact (connection_left_open_on_failure (sample_env t0) _ _ _ _
           eq_refl Hrun).
Defined.

(** ** The conflict clause *)

Lemma insert_on_conflict_fresh (key : string) (excluded : Row) (t : Table) :
  t !! key = None ->
  insert_on_conflict key excluded t !! key = Some excluded.
Proof.
  intros H. unfold insert_on_conflict. rewrite H. apply lookup_insert_eq.
Qed.

Lemma insert_on_conflict_existing (key : string) (old excluded : Row) (t : Table) :
  t !! key = Some old ->
  insert_on_conflict key excluded t !! key
  = Some (on_conflict_do_update old excluded).
Proof.
  intros H. unfold insert_on_conflict. rewrite H. apply lookup_insert_eq.
Qed.

Lemma insert_on_conflict_other (key key' : string) (excluded : Row) (t : Table) :
  key <> key' ->
  insert_on_conflict key excluded t !! key' = t !! key'.
Proof.
  intros H. unfold insert_on_conflict.
  destruct (t !! key); apply lookup_insert_ne, H.
Qed.

(** On a conflict the ten columns of the [SET] list take the incoming values;
    [author] keeps the stored one. *)
Lemma on_conflict_do_update_columns (old excluded : Row) :
  let row := on_conflict_do_update old excluded in
  author row = author old /\
  downloads row = downloads excluded /\
  likes row = likes excluded /\
  pipeline_tag row = pipeline_tag excluded /\
  library_name row = library_name excluded /\
  model_type row = model_type excluded /\
  license row = license excluded /\
  private row = private excluded /\
  last_modified row = last_modified excluded /\
  is_recent row = is_recent excluded /\
  fetch_time row = fetch_time excluded.
Proof. cbn. repeat split. Qed.

(** C1. A model stored by an earlier run without an author comes back a day
    later with author ["alice"] and more likes.  The upsert overwrites
    [likes], [last_modified] and [fetch_time] of the stored row, but its
    [author] is still ["unknown"]: the [SET] list leaves that column out. *)
Theorem upsert_keeps_stored_author :
  (exists w,
     load_to_postgres (sample_env t0) (frame_at t0 [old_model])
                      (after_transform None) = (Ok tt, w) /\
     committed w = Some old_table) /\
  transform_models_data (sample_env t1) [new_model] (fresh_world (Some old_table))
  = (Ok (frame_at t1 [new_model]), after_transform (Some old_table)) /\
  at_ (frame_at t1 [new_model]) 0 "author" = Some (Obj (JStr "alice")) /\
  exists w' tbl row,
    load_to_postgres (sample_env t1) (frame_at t1 [new_model])
                     (after_transform (Some old_table)) = (Ok tt, w') /\
    committed w' = Some tbl /\
    tbl !! "a/b" = Some row /\
    likes row = SqlInteger 9 /\
    last_modified row = SqlTimestamp t1 /\
    fetch_time row = SqlTimestamp (t1 + 1000) /\
    author row = SqlText "unknown" /\
    author row <> author new_row.
Proof.
  split.
  { eexists. split; evaluate. }
  split; [evaluate|].
  split; [evaluate|].
  eexists _, _, _.
  split; [evaluate|].
  split; [evaluate|].
  split; [evaluate|].
  repeat (split; [evaluate|]).
  vm_compute. discriminate.
Qed.

(** C8. Upserting the same one-record batch twice over the table of the
    earlier run leaves one row for the model, but that row is not the record
    the second run wrote: its [author] is the one stored before. *)
Theorem double_upsert_keeps_stored_author :
  exists w1 w2 tbl row,
    load_to_postgres (sample_env t1) (frame_at t1 [new_model])
                     (after_transform (Some old_table)) = (Ok tt, w1) /\
    load_to_postgres (sample_env t1) (frame_at t1 [new_model]) w1 = (Ok tt, w2) /\
    run_batch (sample_env t1) ∅
      [ [ Obj (JStr "a/b"); Obj (JStr "alice"); Obj (JInt 0); Obj (JInt 9);
          Obj (JStr ""); Obj (JStr ""); Obj (JStr ""); Obj (JStr "unknown");
          Obj (JBool false); Timestamp t1; Obj (JBool true);
          Timestamp (t1 + 1000) ] ]
    = Ok {[ "a/b" := new_row ]} /\
    committed w2 = Some tbl /\
    size tbl = 1%nat /\
    tbl !! "a/b" = Some row /\
    author row = SqlText "unknown" /\
    row <> new_row.
Proof.
  eexists _, _, _, _.
  split; [evaluate|].
  split; [evaluate|].
  split; [evaluate|].
  split; [evaluate|].
  split; [evaluate|].
  split; [evaluate|].
  split; [evaluate|].
  vm_compute. discriminate.
Qed.

(** C10. Two records without [modelId] both get the key [""] and one row
    persists for them.  That row has the [likes] of the second record and the
    [author] of the first: it is not the last one written. *)
Theorem anonymous_records_share_one_hybrid_row :
  transform_models_data (sample_env t0) anonymous_models (fresh_world None)
  = (Ok (frame_at t0 anonymous_models), after_transform None) /\
  at_ (frame_at t0 anonymous_models) 0 "modelId" = Some (Obj (JStr "")) /\
  at_ (frame_at t0 anonymous_models) 1 "modelId" = Some (Obj (JStr "")) /\
  exists w' sub tbl row,
    load_to_postgres (sample_env t0) (frame_at t0 anonymous_models)
                     (after_transform None) = (Ok tt, w') /\
    getitems (frame_at t0 anonymous_models) schema_columns = Ok sub /\
    bind_params (sample_env t0) <$> values_tolist sub !! 1%nat
    = Some (Ok ("", last_anonymous_row)) /\
    committed w' = Some tbl /\
    size tbl = 1%nat /\
    tbl !! "" = Some row /\
    likes row = SqlInteger 2 /\
    author row = SqlText "x" /\
    row <> last_anonymous_row.
Proof.
  split; [evaluate|].
  split; [evaluate|].
  split; [evaluate|].
  eexists _, _, _, _.
  split; [evaluate|].
  split; [evaluate|].
  repeat (split; [evaluate|]).
  vm_compute. discriminate.
Qed.

(** ** The batch, twice *)

Section BatchFacts.

Context (env : Env).

Lemma run_batch_apply_rows (t : Table) (argslist : list (list cell)) :
  run_batch env t argslist
  = (krs <- bind_all env argslist ;; Ok (apply_rows t krs))%res.
Proof.
  revert t. induction argslist as [|p rest IH]; intros t; [reflexivity|].
  cbn [run_batch bind_all].
  destruct (bind_params env p) as [[k r]|e]; [|reflexivity].
  cbn. rewrite IH. destruct (bind_all env rest); reflexivity.
Qed.

Lemma apply_rows_untouched (krs : list (string * Row)) (t : Table) (key : string) :
  last_for key krs = None -> apply_rows t krs !! key = t !! key.
Proof.
  revert t. induction krs as [|[k r] rest IH]; intros t; [reflexivity|].
  cbn [last_for apply_rows fold_left fst snd].
  destruct (last_for key rest) eqn:Hlast; [discriminate|].
  destruct (String.eqb_spec k key) as [->|Hne]; [discriminate|].
  intros _. fold (apply_rows (insert_on_conflict k r t) rest).
  rewrite IH by reflexivity. apply insert_on_conflict_other, Hne.
Qed.

Lemma on_conflict_do_update_twice (old r : Row) :
  on_conflict_do_update (on_conflict_do_update old r) r
  = on_conflict_do_update old r.
Proof. reflexivity. Qed.

Lemma on_conflict_do_update_self (r : Row) : on_conflict_do_update r r = r.
Proof. destruct r; reflexivity. Qed.

(** After a batch, the row under a key the batch mentions carries, in every
    column of the [SET] list, the values of the last row proposed for it. *)
Lemma apply_rows_last (krs : list (string * Row)) (t : Table)
    (key : string) (r : Row) :
  last_for key krs = Some r ->
  exists x, apply_rows t krs !! key = Some x /\ on_conflict_do_update x r = x.
Proof.
  revert t. induction krs as [|[k r0] rest IH]; intros t; [discriminate|].
  cbn [last_for apply_rows fold_left fst snd].
  fold (apply_rows (insert_on_conflict k r0 t) rest).
  destruct (last_for key rest) as [r'|] eqn:Hlast.
  - intros [= ->]. apply IH. reflexivity.
  - destruct (String.eqb_spec k key) as [->|Hne]; [|discriminate].
    intros [= ->]. rewrite apply_rows_untouched by exact Hlast.
    destruct (t !! key) as [old|] eqn:Hold.
    + rewrite (insert_on_conflict_existing _ _ _ _ Hold).
      eexists. split; [reflexivity|]. apply on_conflict_do_update_twice.
    + rewrite (insert_on_conflict_fresh _ _ _ Hold).
      eexists. split; [reflexivity|]. apply on_conflict_do_update_self.
Qed.

Lemma apply_rows_absorbed (krs : list (string * Row)) (s t : Table) :
  (forall key, author <$> s !! key = author <$> t !! key) ->
  (forall key, last_for key krs = None -> s !! key = t !! key) ->
  (forall key r, last_for key krs = Some r ->
     exists x, t !! key = Some x /\ on_conflict_do_update x r = x) ->
  apply_rows s krs = t.
Proof.
  revert s. induction krs as [|[k r] rest IH]; intros s Hauth Hrest Hlast.
  - cbn. apply map_eq. intros key. apply Hrest. reflexivity.
  - cbn [apply_rows fold_left fst snd].
    fold (apply_rows (insert_on_conflict k r s) rest).
    assert (Hk : exists r', last_for k ((k, r) :: rest) = Some r').
    { cbn. destruct (last_for k rest); [eauto|].
      rewrite String.eqb_refl. eauto. }
    destruct Hk as [r' Hr'].
    destruct (Hlast k r' Hr') as (x & Hx & Hfix).
    pose proof (Hauth k) as Hak. rewrite Hx in Hak.
    destruct (s !! k) as [y|] eqn:Hy; [|discriminate].
    injection Hak as Hak.
    apply IH.
    + intros key. destruct (decide (k = key)) as [<-|Hne].
      * rewrite (insert_on_conflict_existing _ _ _ _ Hy), Hx. cbn.
        congruence.
      * rewrite insert_on_conflict_other by exact Hne. apply Hauth.
    + intros key Hnone. destruct (decide (k = key)) as [<-|Hne].
      * rewrite (insert_on_conflict_existing _ _ _ _ Hy), Hx.
        cbn in Hr'. rewrite Hnone, String.eqb_refl in Hr'.
        injection Hr' as <-. f_equal. rewrite <- Hfix.
        unfold on_conflict_do_update. cbn. rewrite Hak. reflexivity.
      * rewrite insert_on_conflict_other by exact Hne.
        apply Hrest. cbn. rewrite Hnone.
        destruct (String.eqb_spec k key); [contradiction|reflexivity].
    + intros key r0 Hr0. apply Hlast. cbn. rewrite Hr0. reflexivity.
Qed.

Lemma apply_rows_idempotent (krs : list (string * Row)) (t : Table) :
  apply_rows (apply_rows t krs) krs = apply_rows t krs.
Proof.
  apply apply_rows_absorbed.
  - reflexivity.
  - reflexivity.
  - intros key r. apply apply_rows_last.
Qed.

(** Running the same batch a second time changes nothing: the table after two
    runs is the table after one. *)
Lemma run_batch_idempotent (t final : Table) (argslist : list (list cell)) :
  run_batch env t argslist = Ok final ->
  run_batch env final argslist = Ok final.
Proof.
  rewrite !run_batch_apply_rows.
  destruct (bind_all env argslist) as [krs|e]; cbn; [|discriminate].
  intros [= <-]. f_equal. apply apply_rows_idempotent.
Qed.

End BatchFacts.

(** ** What a successful load stores *)

Section StoredRows.

Context (env : Env).

Lemma load_ok_rows (df : DataFrame) (w w' : World) :
  load_to_postgres env df w = (Ok tt, w') ->
  exists sub krs,
    getitems df schema_columns = Ok sub /\
    bind_all env (values_tolist sub) = Ok krs /\
    committed w' = Some (apply_rows (ensured (committed w)) krs).
Proof.
  intros Hrun. apply load_to_postgres_inv in Hrun.
  inversion Hrun as [| | | |sub final Hc Hcr Hsel Hbatch]; subst.
  rewrite run_batch_apply_rows in Hbatch.
  destruct (bind_all env (values_tolist sub)) as [krs|e] eqn:Hbind;
    [|discriminate].
  cbn in Hbatch. injection Hbatch as <-. eauto.
Qed.

Lemma last_for_none (key : string) (krs : list (string * Row)) :
  last_for key krs = None <-> ~ In key (map fst krs).
Proof.
  induction krs as [|[k r] rest IH]; cbn; [tauto|].
  destruct (last_for key rest) as [r'|].
  - split; [discriminate|]. intros H. exfalso. apply H. right.
    destruct (proj1 (not_iff_compat IH)) as [];
      [discriminate | tauto].
  - destruct (String.eqb_spec k key) as [->|Hne].
    + split; [discriminate|]. intros H. exfalso. apply H. left. reflexivity.
    + split; [|reflexivity]. intros _ [H|H]; [contradiction|].
      apply (proj1 IH); [reflexivity | exact H].
Qed.

Lemma apply_rows_keeps_author (krs : list (string * Row)) (t : Table)
    (key : string) (old : Row) :
  t !! key = Some old ->
  exists row, apply_rows t krs !! key = Some row /\ author row = author old.
Proof.
  revert t old. induction krs as [|[k r] rest IH]; intros t old Hold.
  - exists old. auto.
  - cbn [apply_rows fold_left fst snd].
    fold (apply_rows (insert_on_conflict k r t) rest).
    destruct (decide (k = key)) as [->|Hne].
    + destruct (IH (insert_on_conflict key r t) (on_conflict_do_update old r))
        as (row & Hrow & Hauth).
      { apply insert_on_conflict_existing, Hold. }
      exists row. split; [exact Hrow | exact Hauth].
    + apply IH. rewrite insert_on_conflict_other by exact Hne. exact Hold.
Qed.

Lemma apply_rows_app (t : Table) (krs krs' : list (string * Row)) :
  apply_rows t (krs ++ krs') = apply_rows (apply_rows t krs) krs'.
Proof. unfold apply_rows. apply fold_left_app. Qed.





End StoredRows.

(** ** What the load reads of the frame *)

Section FrameFacts.

Context (env : Env).



Lemma values_tolist_lookup (df : DataFrame) (i : nat) :
  (i < df_len df)%nat ->
  values_tolist df !! i
  = Some (map (fun c => default NaN (snd c !! i)) (df_columns df)).
Proof.
  intros Hi. unfold values_tolist.
  rewrite lookup_map, lookup_seq_lt by exact Hi. cbn.
  f_equal. apply map_ext. intros c. apply nth_lookup.
Qed.

(** The selection of line 88 on a frame the transform returned. *)
Lemma getitems_framed (filler ft : Z) (mls : list (RawRecord * cell))
    (flags : Series) :
  getitems (framed env filler ft mls flags) schema_columns
  = Ok (mkDataFrame (length mls)
          (map (fun l => (l, default []
                               (assoc l (df_columns
                                           (framed env filler ft mls flags)))))
               schema_columns)).
Proof. reflexivity. Qed.

(** The selected sub-frame has the twelve labels of the schema, and the
    parameters of row [i] are, label by label, the cells of row [i] of the
    frame. *)
Lemma framed_selection (filler ft : Z) (mls : list (RawRecord * cell))
    (flags : Series) :
  length flags = length mls ->
  exists sub,
    getitems (framed env filler ft mls flags) schema_columns = Ok sub /\
    map fst (df_columns sub) = schema_columns /\
    length (values_tolist sub) = length mls /\
    forall i, (i < length mls)%nat ->
      exists params,
        values_tolist sub !! i = Some params /\
        Forall2 (fun label x =>
                   at_ (framed env filler ft mls flags) i label = Some x)
                schema_columns params.
Proof.
  intros Hlen. eexists. split; [apply getitems_framed|].
  split; [reflexivity|].
  split; [unfold values_tolist; rewrite length_map, length_seq; reflexivity|].
  intros i Hi. eexists. split; [apply values_tolist_lookup; exact Hi|].
  unfold schema_columns.
  cbn [df_columns framed map snd fst assoc String.eqb Ascii.eqb Bool.eqb
       from_option id].
  repeat (constructor;
          [ framed_at;
            match goal with
            | |- ?col !! i = Some _ =>
                let x := fresh "x" in
                let Hx := fresh "Hx" in
                destruct (lookup_lt_is_Some_2 col i) as [x Hx];
                [ rewrite ?Hlen; unfold fillna;
                  rewrite ?length_map, ?length_infer_column, ?length_map,
                    ?length_replicate; lia
                | rewrite Hx; reflexivity ]
            end
          |]).
  constructor.
Qed.





End FrameFacts.


(** ** More about the transform *)

Section TransformMore.

Context (env : Env).

(** Under [model.get(key) or 0] every falsy value, not only a missing one,
    becomes the integer 0, and every truthy value is kept whatever its type
    or sign. *)
Theorem counters_fall_back_to_zero
    (models : list RawRecord) (w w' : World) (df : DataFrame)
    (i : nat) (m : RawRecord) (column : string) :
  transform_models_data env models w = (Ok df, w') ->
  models !! i = Some m ->
  In column counter_columns ->
  at_ df i column
  = Some (match m !! column with
          | Some v => if truthy v then Obj v else Obj (JInt 0)
          | None => Obj (JInt 0)
          end).
Proof.
  intros Hrun Hm Hin.
  destruct (transform_inv env _ _ _ _ Hrun)
    as (mls & flags & Hfst & _ & _ & _ & -> & _).
  destruct (mls_lookup _ _ _ _ Hfst Hm) as [lm Hlm].
  cbn in Hin. destruct Hin as [<-|[<-|[]]];
    framed_at;
    (rewrite infer_column_no_gaps;
     [ rewrite lookup_map, Hlm; cbn [fmap option_fmap option_map fst];
       unfold get_none, get, py_or; destruct (m !! _); reflexivity
     | intros x Hx; apply in_map_iff in Hx as (p & <- & _);
       apply py_or_zero_present; unfold get_none, get;
       destruct (fst p !! _); eauto ]).
Qed.

(** [modelname], [modelId] and [private] take their default only when the
    key is absent, and a string, a boolean, a list or an object under the key
    is kept as it is; [private] is not coerced to a boolean. *)
Theorem plain_fields_pass_through
    (models : list RawRecord) (w w' : World) (df : DataFrame)
    (i : nat) (m : RawRecord) (column key : string) (default : cell) :
  transform_models_data env models w = (Ok df, w') ->
  models !! i = Some m ->
  In (column, key, default) plain_defaults ->
  (m !! key = None -> at_ df i column = Some default) /\
  (forall v, m !! key = Some v ->
             v <> JNull -> (forall n, v <> JInt n) ->
             at_ df i column = Some (Obj v)).
Proof.
  intros Hrun Hm Hin.
  destruct (transform_inv env _ _ _ _ Hrun)
    as (mls & flags & Hfst & _ & _ & _ & -> & _).
  destruct (mls_lookup _ _ _ _ Hfst Hm) as [lm Hlm].
  cbn in Hin. destruct Hin as [H|[H|[H|[]]]]; injection H as <- <- <-;
    framed_at;
    (split;
     [ intros Hnone; apply infer_column_keeps; [|reflexivity|reflexivity];
       rewrite lookup_map, Hlm; cbn; unfold get; rewrite Hnone; reflexivity
     | intros v Hv Hnull Hint; apply infer_column_keeps;
       [ rewrite lookup_map, Hlm; cbn; unfold get; rewrite Hv; reflexivity
       | destruct v; try reflexivity; congruence
       | destruct v; try reflexivity; exfalso; eapply Hint; reflexivity ] ]).
Qed.

(** In every row of a returned frame [fetch_time] is the same reading of the
    clock, and [last_modified] is neither missing nor zone-aware: it is a
    naive timestamp or the array made of a value that is not a scalar.  A
    [lastModified] that parses to a naive timestamp is kept as parsed. *)
Theorem every_row_is_stamped
    (models : list RawRecord) (w w' : World) (df : DataFrame)
    (i : nat) (m : RawRecord) :
  transform_models_data env models w = (Ok df, w') ->
  models !! i = Some m ->
  at_ df i "fetch_time" = Some (Timestamp (wall_clock env (S (clock_reads w)))) /\
  (exists x, at_ df i "last_modified" = Some x /\
             ((exists t, x = Timestamp t) \/ (exists source, x = Array source))) /\
  (forall v t,
     m !! "lastModified" = Some v -> v <> JNull ->
     parse_datetime env v = Ok (Naive t) ->
     at_ df i "last_modified" = Some (Timestamp t)).
Proof.
  intros Hrun Hm.
  destruct (transform_inv env _ _ _ _ Hrun)
    as (mls & flags & Hfst & _ & Hall & Hflags & -> & _).
  destruct (mls_lookup _ _ _ _ Hfst Hm) as [lm Hlm].
  destruct (framed_time_cells env _ _ _ _ _ _ _ Hflags Hlm)
    as (y & b & Hy & _ & Hkeep & Hlast & Hft & _ & Hflag).
  split; [exact Hft|]. split.
  - eexists. split; [exact Hlast|].
    destruct (recent_flag_ok env _ _ _ Hflag)
      as (b' & _ & [(t & Hx & _)|[(source & Hx & _)|[Hx _]]]); eauto.
    exfalso. destruct (isna y) eqn:Hna; [discriminate|].
    rewrite Hx in Hna. discriminate.
  - intros v t Hv Hnull Hparse. rewrite Hlast.
    assert (Hlm' : lm = Timestamp t).
    { pose proof (proj1 (Forall_forall _ _) Hall (m, lm)) as Hp.
      cbn [fst snd] in Hp.
      assert (Hin : (m, lm) ∈ mls) by (eapply list_elem_of_lookup_2; eauto).
      specialize (Hp Hin). unfold get in Hp. rewrite Hv in Hp.
      destruct v; cbn in Hp; try congruence; rewrite Hparse in Hp; congruence. }
    rewrite (Hkeep ltac:(rewrite Hlm'; reflexivity)
                   ltac:(rewrite Hlm'; reflexivity)), Hlm'.
    reflexivity.
Qed.

(** The frame has one index position per record and thirteen columns, in a
    fixed order, each as long as the index. *)
Theorem frame_is_rectangular
    (models : list RawRecord) (w w' : World) (df : DataFrame) :
  transform_models_data env models w = (Ok df, w') ->
  df_len df = length models /\
  map fst (df_columns df) = frame_columns /\
  Forall (fun c => length (snd c) = df_len df) (df_columns df).
Proof.
  intros Hrun.
  destruct (transform_inv env _ _ _ _ Hrun)
    as (mls & flags & Hfst & _ & _ & Hflags & -> & _).
  destruct (series_apply_inv _ _ _ Hflags) as [Hlen _].
  split; [cbn; rewrite <- Hfst; symmetry; apply length_map|].
  split; [reflexivity|].
  cbn [framed df_columns df_len].
  repeat constructor; cbn [snd];
    rewrite ?Hlen; unfold fillna;
    rewrite ?length_map, ?length_infer_column, ?length_map, ?length_replicate;
    reflexivity.
Qed.

(** The transform touches nothing of the world but the clock, which it reads
    at most twice, and exactly twice when it returns a frame; store,
    connection and driver are not touched. *)
Theorem transform_only_reads_the_clock
    (models : list RawRecord) (w w' : World) (r : result DataFrame) :
  transform_models_data env models w = (r, w') ->
  committed w' = committed w /\
  session w' = session w /\
  trace w' = trace w /\
  (clock_reads w <= clock_reads w' <= 2 + clock_reads w)%nat /\
  (forall df, r = Ok df -> clock_reads w' = (2 + clock_reads w)%nat).
Proof.
  intros Hrun.
  destruct (transform_world env _ _ _ _ Hrun) as [[-> [e ->]]| ->].
  - repeat split; try lia. discriminate.
  - repeat split; cbn; lia.
Qed.

(** The transform reads eleven keys of a record: two batches that agree on
    them give the same result, whatever else their records carry. *)
Theorem transform_ignores_other_keys
    (models models' : list RawRecord) (w : World) :
  Forall2 (fun m m' : RawRecord => forall k, In k keys_read -> m !! k = m' !! k)
          models models' ->
  transform_models_data env models w = transform_models_data env models' w.
Proof.
  intros Hsame. unfold transform_models_data.
  rewrite (comprehension_same env models models'); [reflexivity|].
  eapply Forall2_impl; [exact Hsame|].
  intros m m' Ha. unfold model_dict, row_dict, get_none, get.
  rewrite ?(Ha "name"), ?(Ha "modelId"), ?(Ha "author"),
    ?(Ha "downloads"), ?(Ha "likes"), ?(Ha "pipeline_tag"),
    ?(Ha "library_name"), ?(Ha "model_type"),
    ?(Ha "license"), ?(Ha "private"), ?(Ha "lastModified")
    by (cbn; tauto).
  reflexivity.
Qed.

(** What the load is given for record [i] of a returned frame: twelve cells,
    position by position the cells of row [i] of the frame under the labels
    of the schema, in the order of the schema; [modelname] is not among
    them. *)
Theorem batch_row_is_normalized_record
    (models : list RawRecord) (w w' : World) (df : DataFrame) (i : nat) :
  transform_models_data env models w = (Ok df, w') ->
  (i < length models)%nat ->
  exists sub params,
    getitems df schema_columns = Ok sub /\
    map fst (df_columns sub) = schema_columns /\
    length (values_tolist sub) = length models /\
    values_tolist sub !! i = Some params /\
    Forall2 (fun label x => at_ df i label = Some x) schema_columns params.
Proof.
  intros Hrun Hi.
  destruct (transform_inv env _ _ _ _ Hrun)
    as (mls & flags & Hfst & _ & _ & Hflags & -> & _).
  destruct (series_apply_inv _ _ _ Hflags) as [Hlen _].
  assert (Hlen' : length flags = length mls).
  { rewrite Hlen. unfold fillna.
    rewrite length_map, length_infer_column, length_map. reflexivity. }
  assert (Hmls : length mls = length models)
    by (rewrite <- Hfst; symmetry; apply length_map).
  destruct (framed_selection env (wall_clock env (clock_reads w))
              (wall_clock env (S (clock_reads w))) mls flags Hlen')
    as (sub & Hsel & Hlabels & Hrows & Hcells).
  destruct (Hcells i ltac:(lia)) as (params & Hparams & Hrow).
  exists sub, params.
  split; [exact Hsel|]. split; [exact Hlabels|]. split; [congruence|].
  split; [exact Hparams | exact Hrow].
Qed.

End TransformMore.

(** The counters of [odd_counters_model]: an empty string gives 0, a negative
    number stays. *)
Lemma counters_fall_back_to_zero_witness :
  transform_models_data (sample_env t0) [odd_counters_model] (fresh_world None)
  = (Ok (frame_at t0 [odd_counters_model]), after_transform None) /\
  [odd_counters_model] !! 0%nat = Some odd_counters_model /\
  In "downloads" counter_columns /\
  odd_counters_model !! "downloads" = Some (JStr "") /\
  at_ (frame_at t0 [odd_counters_model]) 0 "downloads" = Some (Obj (JInt 0)) /\
  at_ (frame_at t0 [odd_counters_model]) 0 "likes" = Some (Obj (JInt (-3))).
Proof.
  assert (Hrun : transform_models_data (sample_env t0) [odd_counters_model]
                   (fresh_world None)
                 = (Ok (frame_at t0 [odd_counters_model]), after_transform None))
    by evaluate.
  split; [exact Hrun|]. split; [reflexivity|]. split; [cbn; auto|].
  split; [evaluate|]. split.
  - rewrite (counters_fall_back_to_zero (sample_env t0) _ _ _ _ 0%nat
               odd_counters_model "downloads" Hrun eq_refl)
      by (cbn; auto).
    evaluate.
  - rewrite (counters_fall_back_to_zero (sample_env t0) _ _ _ _ 0%nat
               odd_counters_model "likes" Hrun eq_refl)
      by (cbn; auto).
    evaluate.
Defined.

(** [private] of [odd_private_model] stays the string it was, and its
    [modelname], for which the record has no [name], is the empty string. *)
Lemma plain_fields_pass_through_witness :
  transform_models_data (sample_env t0) [odd_private_model] (fresh_world None)
  = (Ok (frame_at t0 [odd_private_model]), after_transform None) /\
  [odd_private_model] !! 0%nat = Some odd_private_model /\
  In ("private", "private", Obj (JBool false)) plain_defaults /\
  odd_private_model !! "private" = Some (JStr "yes") /\
  odd_private_model !! "name" = None /\
  at_ (frame_at t0 [odd_private_model]) 0 "private" = Some (Obj (JStr "yes")) /\
  at_ (frame_at t0 [odd_private_model]) 0 "modelname" = Some (Obj (JStr "")).
Proof.
  assert (Hrun : transform_models_data (sample_env t0) [odd_private_model]
                   (fresh_world None)
                 = (Ok (frame_at t0 [odd_private_model]), after_transform None))
    by evaluate.
  assert (Hprivate : odd_private_model !! "private" = Some (JStr "yes"))
    by evaluate.
  assert (Hname : odd_private_model !! "name" = None) by evaluate.
  split; [exact Hrun|]. split; [reflexivity|]. split; [cbn; auto|].
  split; [exact Hprivate|]. split; [exact Hname|]. split.
  - apply (proj2 (plain_fields_pass_through (sample_env t0) _ _ _ _ 0%nat
                    odd_private_model "private" "private" (Obj (JBool false))
                    Hrun eq_refl ltac:(cbn; auto))
                 (JStr "yes") Hprivate);
      [discriminate | intros n; discriminate].
  - apply (proj1 (plain_fields_pass_through (sample_env t0) _ _ _ _ 0%nat
                    odd_private_model "modelname" "name" (Obj (JStr ""))
                    Hrun eq_refl ltac:(cbn; auto))
                 Hname).
Defined.

(** The date of [dated_model] is kept; the list of [listed_model] gives an
    array. *)
Lemma every_row_is_stamped_witness :
  transform_models_data (sample_env t0) [dated_model] (fresh_world None)
  = (Ok (frame_at t0 [dated_model]), after_transform None) /\
  [dated_model] !! 0%nat = Some dated_model /\
  at_ (frame_at t0 [dated_model]) 0 "fetch_time" = Some (Timestamp (t0 + 1000)) /\
  at_ (frame_at t0 [dated_model]) 0 "last_modified"
  = Some (Timestamp 1600000000000000000) /\
  at_ (frame_of (sample_env t0) [listed_model] (fresh_world None))
      0 "last_modified"
  = Some (Array (JList [JInt 1600000000000000000])).
Proof.
  assert (Hrun : transform_models_data (sample_env t0) [dated_model]
                   (fresh_world None)
                 = (Ok (frame_at t0 [dated_model]), after_transform None))
    by evaluate.
  split; [exact Hrun|]. split; [reflexivity|].
  destruct (every_row_is_stamped (sample_env t0) _ _ _ _ 0%nat dated_model
              Hrun eq_refl) as (Hft & _ & Hkept).
  split; [exact Hft|]. split; [|evaluate].
  apply (Hkept (JInt 1600000000000000000)); [evaluate|discriminate|reflexivity].
Defined.

(** The frame of the two [boundary_models]. *)
Lemma frame_is_rectangular_witness :
  transform_models_data (sample_env t0) boundary_models (fresh_world None)
  = (Ok (frame_at t0 boundary_models), after_transform None) /\
  df_len (frame_at t0 boundary_models) = 2%nat /\
  map fst (df_columns (frame_at t0 boundary_models)) = frame_columns /\
  Forall (fun c => length (snd c) = df_len (frame_at t0 boundary_models))
         (df_columns (frame_at t0 boundary_models)).
Proof.
  assert (Hrun : transform_models_data (sample_env t0) boundary_models
                   (fresh_world None)
                 = (Ok (frame_at t0 boundary_models), after_transform None))
    by evaluate.
  split; [exact Hrun|].
  exact (frame_is_rectangular (sample_env t0) _ _ _ _ Hrun).
Defined.

(** The transform of [boundary_models] in a world with a stored table. *)
Lemma transform_only_reads_the_clock_witness :
  transform_models_data (sample_env t0) boundary_models
                        (fresh_world (Some old_table))
  = (Ok (frame_at t0 boundary_models), after_transform (Some old_table)) /\
  committed (after_transform (Some old_table)) = Some old_table /\
  session (after_transform (Some old_table)) = None /\
  trace (after_transform (Some old_table)) = [] /\
  clock_reads (after_transform (Some old_table)) = 2%nat.
Proof.
  assert (Hrun : transform_models_data (sample_env t0) boundary_models
                   (fresh_world (Some old_table))
                 = (Ok (frame_at t0 boundary_models),
                    after_transform (Some old_table)))
    by evaluate.
  split; [exact Hrun|].
  destruct (transform_only_reads_the_clock (sample_env t0) _ _ _ _ Hrun)
    as (Hc & Hs & Ht & _ & Hok).
  split; [exact Hc|]. split; [exact Hs|]. split; [exact Ht|].
  exact (Hok _ eq_refl).
Defined.

Ltac same_on_keys_read :=
  repeat constructor;
  let k := fresh "k" in
  let Hk := fresh "Hk" in
  intros k Hk; cbn in Hk;
  repeat (destruct Hk as [<-|Hk]; [evaluate|]);
  destruct Hk.

(** [tagged_model] carries tags, [dated_model] does not; their frames are the
    same. *)
Lemma transform_ignores_other_keys_witness :
  Forall2 (fun m m' : RawRecord => forall k, In k keys_read -> m !! k = m' !! k)
          [dated_model] [tagged_model] /\
  dated_model !! "tags" <> tagged_model !! "tags" /\
  transform_models_data (sample_env t0) [dated_model] (fresh_world None)
  = transform_models_data (sample_env t0) [tagged_model] (fresh_world None).
Proof.
  assert (Hsame : Forall2 (fun m m' : RawRecord =>
                             forall k, In k keys_read -> m !! k = m' !! k)
                          [dated_model] [tagged_model])
    by same_on_keys_read.
  split; [exact Hsame|]. split; [vm_compute; discriminate|].
  exact (transform_ignores_other_keys (sample_env t0) _ _ _ Hsame).
Defined.

(** The parameters bound for [new_model] by the run that starts at [t1]. *)
Lemma batch_row_is_normalized_record_witness :
  transform_models_data (sample_env t1) [new_model] (fresh_world None)
  = (Ok (frame_at t1 [new_model]), after_transform None) /\
  (0 < length [new_model])%nat /\
  exists sub params,
    getitems (frame_at t1 [new_model]) schema_columns = Ok sub /\
    map fst (df_columns sub) = schema_columns /\
    length (values_tolist sub) = 1%nat /\
    values_tolist sub !! 0%nat = Some params /\
    Forall2 (fun label x => at_ (frame_at t1 [new_model]) 0 label = Some x)
            schema_columns params /\
    params
    = [ Obj (JStr "a/b"); Obj (JStr "alice"); Obj (JInt 0); Obj (JInt 9);
        Obj (JStr ""); Obj (JStr ""); Obj (JStr ""); Obj (JStr "unknown");
        Obj (JBool false); Timestamp t1; Obj (JBool true);
        Timestamp (t1 + 1000) ].
Proof.
  assert (Hrun : transform_models_data (sample_env t1) [new_model]
                   (fresh_world None)
                 = (Ok (frame_at t1 [new_model]), after_transform None))
    by evaluate.
  assert (Hpart : getitems (frame_at t1 [new_model]) schema_columns
                  = Ok (schema_part (frame_at t1 [new_model])))
    by evaluate.
  assert (Hparams : values_tolist (schema_part (frame_at t1 [new_model]))
                      !! 0%nat
                    = Some [ Obj (JStr "a/b"); Obj (JStr "alice");
                             Obj (JInt 0); Obj (JInt 9); Obj (JStr "");
                             Obj (JStr ""); Obj (JStr "");
                             Obj (JStr "unknown"); Obj (JBool false);
                             Timestamp t1; Obj (JBool true);
                             Timestamp (t1 + 1000) ])
    by evaluate.
  split; [exact Hrun|]. split; [cbn; lia|].
  destruct (batch_row_is_normalized_record (sample_env t1) _ _ _ _ 0%nat
              Hrun ltac:(cbn; lia))
    as (sub & params & Hsel & Hlabels & Hlen & Hrow & Hcells).
  exists sub, params.
  split; [exact Hsel|]. split; [exact Hlabels|]. split; [exact Hlen|].
  split; [exact Hrow|]. split; [exact Hcells|].
  rewrite Hpart in Hsel. injection Hsel as <-.
  rewrite Hparams in Hrow. injection Hrow as <-. reflexivity.
Defined.

(** ** More about the load *)

Section LoadMore.

Context (env : Env).

Lemma run_batch_ok_iff (t : Table) (argslist : list (list cell)) :
  (exists final, run_batch env t argslist = Ok final) <->
  (forall params, In params argslist -> exists kr, bind_params env params = Ok kr).
Proof.
  split.
  - intros [final Hok] params Hin.
    destruct (bind_params env params) as [kr|e] eqn:Hp; [eauto|].
    destruct (run_batch_refused_row env t _ _ _ Hin Hp) as [e' He'].
    congruence.
  - intros Hall.
    destruct (run_batch env t argslist) as [final|e] eqn:Hrun; [eauto|].
    destruct (run_batch_raise_inv env _ _ _ Hrun) as (q & Hq & Hqe).
    destruct (Hall q Hq) as [kr Hkr]. congruence.
Qed.

(** The load succeeds exactly when the connection and the schema statement
    do, the frame has the twelve columns and the store accepts every row. *)
Theorem load_succeeds_iff (df : DataFrame) (w : World) :
  fst (load_to_postgres env df w) = Ok tt <->
  connect_fault env = None /\
  create_fault env = None /\
  exists sub,
    getitems df schema_columns = Ok sub /\
    forall params, In params (values_tolist sub) ->
                   exists kr, bind_params env params = Ok kr.
Proof.
  pose proof (load_to_postgres_outcome env df w) as Hout.
  split.
  - intros Hok. rewrite Hok in Hout.
    inversion Hout as [| | | |sub final Hc Hcr Hsel Hbatch]; subst.
    split; [exact Hc|]. split; [exact Hcr|].
    exists sub. split; [exact Hsel|].
    apply (run_batch_ok_iff (ensured (committed w))). eauto.
  - intros (Hc & Hcr & sub & Hsel & Hall).
    apply (run_batch_ok_iff (ensured (committed w))) in Hall as [final Hfinal].
    inversion Hout; subst; congruence.
Qed.

Lemma select_columns_missing (cols : list (string * Series))
    (labels : list string) (column : string) :
  In column labels ->
  assoc column cols = None ->
  In column (missing_labels cols labels) /\
  select_columns cols labels
  = Raise (KeyError_not_in_index (missing_labels cols labels)).
Proof.
  intros Hin Hnone.
  assert (Hmiss : In column (missing_labels cols labels)).
  { apply filter_In. split; [exact Hin|]. rewrite Hnone. reflexivity. }
  split; [exact Hmiss|].
  unfold select_columns.
  destruct (missing_labels cols labels); [destruct Hmiss | reflexivity].
Qed.

(** A frame that lacks columns of the schema makes the load raise one
    [KeyError] that names every label of the schema the frame lacks, in the
    order of the schema, but only after the connection is open and the table
    statement has run: nothing is written, nothing committed, and the
    connection stays open. *)
Theorem load_raises_key_error_on_missing_column
    (df : DataFrame) (w : World) (column : string) :
  connect_fault env = None ->
  create_fault env = None ->
  In column schema_columns ->
  assoc column (df_columns df) = None ->
  In column (missing_labels (df_columns df) schema_columns) /\
  (forall label,
     In label (missing_labels (df_columns df) schema_columns) <->
     In label schema_columns /\ assoc label (df_columns df) = None) /\
  load_to_postgres env df w
  = (Raise (KeyError_not_in_index
              (missing_labels (df_columns df) schema_columns)),
     mkWorld (clock_reads w) (committed w)
             (Some (mkSession true (Some (ensured (committed w)))))
             (trace w ++ prologue)).
Proof.
  intros Hc Hcr Hin Hnone.
  destruct (select_columns_missing (df_columns df) _ _ Hin Hnone)
    as (Hmiss & Hsel).
  split; [exact Hmiss|]. split.
  { intros label. unfold missing_labels. rewrite filter_In.
    destruct (assoc label (df_columns df)); intuition congruence. }
  assert (Hget : getitems df schema_columns
                 = Raise (KeyError_not_in_index
                            (missing_labels (df_columns df) schema_columns)))
    by (unfold getitems; rewrite Hsel; reflexivity).
  pose proof (load_to_postgres_outcome env df w) as Hout.
  destruct (load_to_postgres env df w) as [r w'].
  cbn [fst snd] in Hout.
  inversion Hout; subst; congruence.
Qed.

Lemma getitems_len (df sub : DataFrame) (labels : list string) :
  getitems df labels = Ok sub -> df_len sub = df_len df.
Proof.
  unfold getitems. destruct (select_columns _ _); [|discriminate].
  intros [= <-]. reflexivity.
Qed.

(** A frame with the twelve columns and no row is loaded without a single
    insert: the call creates the table when the store had none, commits and
    closes, and changes nothing else. *)
Theorem load_of_rowless_frame_only_ensures_table
    (df sub : DataFrame) (w : World) :
  connect_fault env = None ->
  create_fault env = None ->
  getitems df schema_columns = Ok sub ->
  df_len df = 0%nat ->
  load_to_postgres env df w
  = (Ok tt,
     mkWorld (clock_reads w) (Some (ensured (committed w)))
             (Some (mkSession false (Some (ensured (committed w)))))
             (trace w ++ prologue ++ [EvCommit; EvCursorClose; EvClose])).
Proof.
  intros Hc Hcr Hsel Hlen.
  assert (Hrows : values_tolist sub = []).
  { unfold values_tolist. rewrite (getitems_len _ _ _ Hsel), Hlen.
    reflexivity. }
  pose proof (load_to_postgres_outcome env df w) as Hout.
  destruct (load_to_postgres env df w) as [r w'].
  cbn [fst snd] in Hout.
  inversion Hout as [| | |e sub' partial n Hc' Hcr' Hsel' Hbatch
                     |sub' final Hc' Hcr' Hsel' Hbatch]; subst;
    try congruence.
  - assert (sub' = sub) by congruence. subst sub'.
    rewrite Hrows in Hbatch. discriminate.
  - assert (sub' = sub) by congruence. subst sub'.
    rewrite Hrows in *. cbn in Hbatch. injection Hbatch as <-.
    reflexivity.
Qed.

(** The load never removes a row and never changes the author of a row that
    was stored before it ran. *)
Theorem load_keeps_rows_and_their_author
    (df : DataFrame) (w w' : World) (key : string) (old : Row) :
  load_to_postgres env df w = (Ok tt, w') ->
  ensured (committed w) !! key = Some old ->
  exists final row,
    committed w' = Some final /\
    final !! key = Some row /\
    author row = author old.
Proof.
  intros Hrun Hold.
  destruct (load_ok_rows env _ _ _ Hrun) as (sub & krs & _ & _ & Hfinal).
  destruct (apply_rows_keeps_author krs _ _ _ Hold) as (row & Hrow & Hauth).
  eauto.
Qed.

(** A row whose key is not in the batch is stored after the load exactly as
    before. *)
Theorem load_leaves_other_keys_alone
    (df sub : DataFrame) (w w' : World)
    (krs : list (string * Row)) (key : string) :
  load_to_postgres env df w = (Ok tt, w') ->
  getitems df schema_columns = Ok sub ->
  bind_all env (values_tolist sub) = Ok krs ->
  ~ In key (map fst krs) ->
  exists final,
    committed w' = Some final /\
    final !! key = ensured (committed w) !! key.
Proof.
  intros Hrun Hsel Hbind Hnot.
  destruct (load_ok_rows env _ _ _ Hrun) as (sub' & krs' & Hsel' & Hbind' & Hfinal).
  assert (sub' = sub) by congruence. subst sub'.
  assert (krs' = krs) by congruence. subst krs'.
  eexists. split; [exact Hfinal|].
  apply apply_rows_untouched, last_for_none, Hnot.
Qed.

(** Insert, then look up: a key that was not stored and occurs once in the
    batch is stored with exactly the row bound for it, author included. *)
Theorem load_stores_new_row_as_bound
    (df sub : DataFrame) (w w' : World)
    (before after : list (string * Row)) (key : string) (r : Row) :
  load_to_postgres env df w = (Ok tt, w') ->
  getitems df schema_columns = Ok sub ->
  bind_all env (values_tolist sub) = Ok (before ++ (key, r) :: after) ->
  ensured (committed w) !! key = None ->
  ~ In key (map fst before) ->
  ~ In key (map fst after) ->
  exists final, committed w' = Some final /\ final !! key = Some r.
Proof.
  intros Hrun Hsel Hbind Hnone Hb Ha.
  destruct (load_ok_rows env _ _ _ Hrun) as (sub' & krs' & Hsel' & Hbind' & Hfinal).
  assert (sub' = sub) by congruence. subst sub'.
  assert (krs' = before ++ (key, r) :: after) by congruence. subst krs'.
  eexists. split; [exact Hfinal|].
  rewrite apply_rows_app. cbn [apply_rows fold_left fst snd].
  fold (apply_rows (insert_on_conflict key r
                      (apply_rows (ensured (committed w)) before)) after).
  rewrite apply_rows_untouched by (apply last_for_none, Ha).
  apply insert_on_conflict_fresh.
  rewrite apply_rows_untouched by (apply last_for_none, Hb).
  exact Hnone.
Qed.

(** Last write wins in the ten columns of the [SET] list: after the load, the
    row under a key of the batch has, in each of them, the value of the last
    row the batch proposed for that key. *)
Theorem load_last_write_wins_on_set_columns
    (df sub : DataFrame) (w w' : World)
    (krs : list (string * Row)) (key : string) (r : Row) :
  load_to_postgres env df w = (Ok tt, w') ->
  getitems df schema_columns = Ok sub ->
  bind_all env (values_tolist sub) = Ok krs ->
  last_for key krs = Some r ->
  exists final row,
    committed w' = Some final /\
    final !! key = Some row /\
    downloads row = downloads r /\
    likes row = likes r /\
    pipeline_tag row = pipeline_tag r /\
    library_name row = library_name r /\
    model_type row = model_type r /\
    license row = license r /\
    private row = private r /\
    last_modified row = last_modified r /\
    is_recent row = is_recent r /\
    fetch_time row = fetch_time r.
Proof.
  intros Hrun Hsel Hbind Hlast.
  destruct (load_ok_rows env _ _ _ Hrun) as (sub' & krs' & Hsel' & Hbind' & Hfinal).
  assert (sub' = sub) by congruence. subst sub'.
  assert (krs' = krs) by congruence. subst krs'.
  destruct (apply_rows_last krs (ensured (committed w)) key r Hlast)
    as (row & Hrow & Hfix).
  exists (apply_rows (ensured (committed w)) krs), row.
  split; [exact Hfinal|]. split; [exact Hrow|].
  rewrite <- Hfix. cbn. repeat split.
Qed.

(** Loading the same frame again succeeds and leaves the store as the first
    load left it. *)
Theorem load_twice_is_load_once (df : DataFrame) (w w1 : World) :
  load_to_postgres env df w = (Ok tt, w1) ->
  exists w2,
    load_to_postgres env df w1 = (Ok tt, w2) /\
    committed w2 = committed w1.
Proof.
  intros Hrun. apply load_to_postgres_inv in Hrun.
  inversion Hrun as [| | | |sub final Hc Hcr Hsel Hbatch]; subst.
  pose proof (run_batch_idempotent env _ _ _ Hbatch) as Hagain.
  match goal with
  | |- exists w2, load_to_postgres env df ?w1 = _ /\ _ =>
      pose proof (load_to_postgres_outcome env df w1) as Hout;
      destruct (load_to_postgres env df w1) as [r2 w2]
  end.
  cbn [fst snd committed ensured] in Hout.
  inversion Hout as [| | |e sub' partial n Hc' Hcr' Hsel' Hbatch'
                     |sub' final' Hc' Hcr' Hsel' Hbatch']; subst;
    try congruence.
  - assert (sub' = sub) by congruence. subst sub'. cbn in Hbatch'. congruence.
  - assert (sub' = sub) by congruence. subst sub'. cbn in Hbatch'.
    assert (final' = final) by congruence. subst final'.
    eexists. split; reflexivity.
Qed.

Lemma bind_params_null_key (p0 : cell) (rest : list cell) :
  adapt env TEXT p0 = Ok SqlNull ->
  exists e, bind_params env (p0 :: rest) = Raise e.
Proof.
  intros Hkey.
  destruct rest as [|p1 [|p2 [|p3 [|p4 [|p5 [|p6 [|p7 [|p8 [|p9 [|p10
    [|p11 [|p12 rest]]]]]]]]]]]]; cbn [bind_params]; eauto.
  rewrite Hkey. cbn [bind_result].
  repeat match goal with
         | |- context [adapt env ?ty ?p] =>
             destruct (adapt env ty p); cbn [bind_result]; eauto
         end.
Qed.

(** One row whose key the store reads as [NULL] is enough to make the whole
    load fail and leave the store as it was, whatever the other rows are. *)
Theorem null_key_fails_the_whole_batch
    (df sub : DataFrame) (w w' : World) (r : result unit)
    (p0 : cell) (rest : list cell) :
  load_to_postgres env df w = (r, w') ->
  getitems df schema_columns = Ok sub ->
  In (p0 :: rest) (values_tolist sub) ->
  adapt env TEXT p0 = Ok SqlNull ->
  (exists e, r = Raise e) /\ committed w' = committed w.
Proof.
  intros Hrun Hsel Hin Hkey.
  destruct (bind_params_null_key p0 rest Hkey) as [e He].
  apply load_to_postgres_inv in Hrun.
  inversion Hrun as [| | | |sub' final Hc Hcr Hsel' Hbatch]; subst;
    try (split; [eauto | reflexivity]).
  exfalso. assert (sub' = sub) by congruence. subst sub'.
  destruct (run_batch_refused_row env (ensured (committed w)) _ _ _ Hin He)
    as [e' He'].
  congruence.
Qed.

End LoadMore.

(** The load of [new_model] over the table of the earlier run succeeds, so
    nothing failed and its one row was accepted. *)
Lemma load_succeeds_iff_witness :
  fst (load_to_postgres (sample_env t1) (frame_at t1 [new_model])
         (after_transform (Some old_table))) = Ok tt /\
  connect_fault (sample_env t1) = None /\
  create_fault (sample_env t1) = None /\
  exists sub,
    getitems (frame_at t1 [new_model]) schema_columns = Ok sub /\
    forall params, In params (values_tolist sub) ->
                   exists kr, bind_params (sample_env t1) params = Ok kr.
Proof.
  assert (H : fst (load_to_postgres (sample_env t1) (frame_at t1 [new_model])
                     (after_transform (Some old_table))) = Ok tt)
    by evaluate.
  split; [exact H|].
  exact (proj1 (load_succeeds_iff (sample_env t1) _ _) H).
Defined.

(** [unfinished_frame] has no [fetch_time] and no [is_recent]; the one
    [KeyError] names both. *)
Lemma load_raises_key_error_on_missing_column_witness :
  connect_fault (sample_env t0) = None /\
  create_fault (sample_env t0) = None /\
  In "fetch_time" schema_columns /\
  assoc "fetch_time" (df_columns unfinished_frame) = None /\
  missing_labels (df_columns unfinished_frame) schema_columns
  = ["is_recent"; "fetch_time"] /\
  load_to_postgres (sample_env t0) unfinished_frame (fresh_world None)
  = (Raise (KeyError_not_in_index ["is_recent"; "fetch_time"]),
     mkWorld 0 None (Some (mkSession true (Some ∅))) prologue).
Proof.
  assert (Hin : In "fetch_time" schema_columns) by (cbn; tauto).
  assert (Hnone : assoc "fetch_time" (df_columns unfinished_frame) = None)
    by evaluate.
  assert (Hmissing : missing_labels (df_columns unfinished_frame)
                       schema_columns
                     = ["is_recent"; "fetch_time"])
    by evaluate.
  split; [reflexivity|]. split; [reflexivity|].
  split; [exact Hin|]. split; [exact Hnone|]. split; [exact Hmissing|].
  destruct (load_raises_key_error_on_missing_column (sample_env t0)
              unfinished_frame (fresh_world None) "fetch_time"
              eq_refl eq_refl Hin Hnone) as (_ & _ & Hrun).
  rewrite Hmissing in Hrun. exact Hrun.
Defined.

(** [rowless_frame] on a store without the table: the table is there
    afterwards, empty. *)
Lemma load_of_rowless_frame_only_ensures_table_witness :
  connect_fault (sample_env t0) = None /\
  create_fault (sample_env t0) = None /\
  getitems rowless_frame schema_columns = Ok rowless_frame /\
  df_len rowless_frame = 0%nat /\
  load_to_postgres (sample_env t0) rowless_frame (fresh_world None)
  = (Ok tt,
     mkWorld 0 (Some ∅) (Some (mkSession false (Some ∅)))
             (prologue ++ [EvCommit; EvCursorClose; EvClose])).
Proof.
  assert (Hsel : getitems rowless_frame schema_columns = Ok rowless_frame)
    by reflexivity.
  split; [reflexivity|]. split; [reflexivity|].
  split; [exact Hsel|]. split; [reflexivity|].
  exact (load_of_rowless_frame_only_ensures_table (sample_env t0)
           rowless_frame rowless_frame (fresh_world None)
           eq_refl eq_refl Hsel eq_refl).
Defined.

(** The stored row of ["a/b"] survives the load of [new_model] with its
    author. *)
Lemma load_keeps_rows_and_their_author_witness :
  load_to_postgres (sample_env t1) (frame_at t1 [new_model])
                   (after_transform (Some old_table))
  = (Ok tt, world_after_load (sample_env t1) (frame_at t1 [new_model])
                             (after_transform (Some old_table))) /\
  old_table !! "a/b" = Some old_row /\
  exists final row,
    committed (world_after_load (sample_env t1) (frame_at t1 [new_model])
                                (after_transform (Some old_table)))
    = Some final /\
    final !! "a/b" = Some row /\
    author row = SqlText "unknown".
Proof.
  assert (Hrun : load_to_postgres (sample_env t1) (frame_at t1 [new_model])
                   (after_transform (Some old_table))
                 = (Ok tt, world_after_load (sample_env t1)
                             (frame_at t1 [new_model])
                             (after_transform (Some old_table))))
    by evaluate.
  assert (Hold : ensured (committed (after_transform (Some old_table))) !! "a/b"
                 = Some old_row) by evaluate.
  split; [exact Hrun|]. split; [evaluate|].
  exact (load_keeps_rows_and_their_author (sample_env t1) _ _ _ "a/b" old_row
           Hrun Hold).
Defined.

(** The load of [other_model] leaves the row of ["a/b"] as it was. *)
Lemma load_leaves_other_keys_alone_witness :
  load_to_postgres (sample_env t1) (frame_at t1 [other_model])
                   (after_transform (Some old_table))
  = (Ok tt, world_after_load (sample_env t1) (frame_at t1 [other_model])
                             (after_transform (Some old_table))) /\
  getitems (frame_at t1 [other_model]) schema_columns
  = Ok (schema_part (frame_at t1 [other_model])) /\
  bind_all (sample_env t1)
           (values_tolist (schema_part (frame_at t1 [other_model])))
  = Ok [("c/d", other_row)] /\
  ~ In "a/b" (map fst [("c/d", other_row)]) /\
  exists final,
    committed (world_after_load (sample_env t1) (frame_at t1 [other_model])
                                (after_transform (Some old_table)))
    = Some final /\
    final !! "a/b" = Some old_row.
Proof.
  assert (Hrun : load_to_postgres (sample_env t1) (frame_at t1 [other_model])
                   (after_transform (Some old_table))
                 = (Ok tt, world_after_load (sample_env t1)
                             (frame_at t1 [other_model])
                             (after_transform (Some old_table))))
    by evaluate.
  assert (Hsel : getitems (frame_at t1 [other_model]) schema_columns
                 = Ok (schema_part (frame_at t1 [other_model])))
    by reflexivity.
  assert (Hbind : bind_all (sample_env t1)
                    (values_tolist (schema_part (frame_at t1 [other_model])))
                  = Ok [("c/d", other_row)]) by evaluate.
  assert (Hnot : ~ In "a/b" (map fst [("c/d", other_row)]))
    by (cbn; intros [H|[]]; discriminate).
  split; [exact Hrun|]. split; [exact Hsel|]. split; [exact Hbind|].
  split; [exact Hnot|].
  destruct (load_leaves_other_keys_alone (sample_env t1) _ _ _ _ _ "a/b"
              Hrun Hsel Hbind Hnot) as (final & Hfinal & Hkey).
  exists final. split; [exact Hfinal|]. rewrite Hkey. evaluate.
Defined.

(** [new_model] loaded into a store without the table is stored as bound,
    with the author it came with. *)
Lemma load_stores_new_row_as_bound_witness :
  load_to_postgres (sample_env t1) (frame_at t1 [new_model])
                   (after_transform None)
  = (Ok tt, world_after_load (sample_env t1) (frame_at t1 [new_model])
                             (after_transform None)) /\
  getitems (frame_at t1 [new_model]) schema_columns
  = Ok (schema_part (frame_at t1 [new_model])) /\
  bind_all (sample_env t1)
           (values_tolist (schema_part (frame_at t1 [new_model])))
  = Ok ([] ++ ("a/b", new_row) :: []) /\
  ensured (committed (after_transform None)) !! "a/b" = None /\
  exists final,
    committed (world_after_load (sample_env t1) (frame_at t1 [new_model])
                                (after_transform None))
    = Some final /\
    final !! "a/b" = Some new_row.
Proof.
  assert (Hrun : load_to_postgres (sample_env t1) (frame_at t1 [new_model])
                   (after_transform None)
                 = (Ok tt, world_after_load (sample_env t1)
                             (frame_at t1 [new_model]) (after_transform None)))
    by evaluate.
  assert (Hsel : getitems (frame_at t1 [new_model]) schema_columns
                 = Ok (schema_part (frame_at t1 [new_model])))
    by reflexivity.
  assert (Hbind : bind_all (sample_env t1)
                    (values_tolist (schema_part (frame_at t1 [new_model])))
                  = Ok ([] ++ ("a/b", new_row) :: [])) by evaluate.
  assert (Hnone : ensured (committed (after_transform None)) !! "a/b"
                  = (None : option Row)) by evaluate.
  split; [exact Hrun|]. split; [exact Hsel|]. split; [exact Hbind|].
  split; [exact Hnone|].
  apply (load_stores_new_row_as_bound (sample_env t1) _ _ _ _ [] [] "a/b"
           new_row Hrun Hsel Hbind Hnone); cbn; tauto.
Defined.

(** [new_model] loaded over the row of the earlier run: the likes and the
    timestamps stored are those of the new row. *)
Lemma load_last_write_wins_on_set_columns_witness :
  load_to_postgres (sample_env t1) (frame_at t1 [new_model])
                   (after_transform (Some old_table))
  = (Ok tt, world_after_load (sample_env t1) (frame_at t1 [new_model])
                             (after_transform (Some old_table))) /\
  getitems (frame_at t1 [new_model]) schema_columns
  = Ok (schema_part (frame_at t1 [new_model])) /\
  bind_all (sample_env t1)
           (values_tolist (schema_part (frame_at t1 [new_model])))
  = Ok [("a/b", new_row)] /\
  last_for "a/b" [("a/b", new_row)] = Some new_row /\
  exists final row,
    committed (world_after_load (sample_env t1) (frame_at t1 [new_model])
                                (after_transform (Some old_table)))
    = Some final /\
    final !! "a/b" = Some row /\
    likes row = SqlInteger 9 /\
    last_modified row = SqlTimestamp t1 /\
    fetch_time row = SqlTimestamp (t1 + 1000).
Proof.
  assert (Hrun : load_to_postgres (sample_env t1) (frame_at t1 [new_model])
                   (after_transform (Some old_table))
                 = (Ok tt, world_after_load (sample_env t1)
                             (frame_at t1 [new_model])
                             (after_transform (Some old_table))))
    by evaluate.
  assert (Hsel : getitems (frame_at t1 [new_model]) schema_columns
                 = Ok (schema_part (frame_at t1 [new_model])))
    by reflexivity.
  assert (Hbind : bind_all (sample_env t1)
                    (values_tolist (schema_part (frame_at t1 [new_model])))
                  = Ok [("a/b", new_row)]) by evaluate.
  assert (Hlast : last_for "a/b" [("a/b", new_row)] = Some new_row)
    by reflexivity.
  split; [exact Hrun|]. split; [exact Hsel|]. split; [exact Hbind|].
  split; [exact Hlast|].
  destruct (load_last_write_wins_on_set_columns (sample_env t1) _ _ _ _ _
              "a/b" new_row Hrun Hsel Hbind Hlast)
    as (final & row & Hfinal & Hrow & _ & Hlikes & _ & _ & _ & _ & _
        & Hmod & _ & Hft).
  exists final, row. split; [exact Hfinal|]. split; [exact Hrow|].
  split; [exact Hlikes|]. split; [exact Hmod | exact Hft].
Defined.

(** The frame of [new_model] loaded twice over the table of the earlier
    run. *)
Lemma load_twice_is_load_once_witness :
  load_to_postgres (sample_env t1) (frame_at t1 [new_model])
                   (after_transform (Some old_table))
  = (Ok tt, world_after_load (sample_env t1) (frame_at t1 [new_model])
                             (after_transform (Some old_table))) /\
  exists w2,
    load_to_postgres (sample_env t1) (frame_at t1 [new_model])
      (world_after_load (sample_env t1) (frame_at t1 [new_model])
                        (after_transform (Some old_table)))
    = (Ok tt, w2) /\
    committed w2
    = committed (world_after_load (sample_env t1) (frame_at t1 [new_model])
                                  (after_transform (Some old_table))).
Proof.
  assert (Hrun : load_to_postgres (sample_env t1) (frame_at t1 [new_model])
                   (after_transform (Some old_table))
                 = (Ok tt, world_after_load (sample_env t1)
                             (frame_at t1 [new_model])
                             (after_transform (Some old_table))))
    by evaluate.
  split; [exact Hrun|].
  exact (load_twice_is_load_once (sample_env t1) _ _ _ Hrun).
Defined.

(** The second row of [null_key_models] has a [None] key, which
    [strict_adapt] reads as [NULL]. *)
Lemma null_key_fails_the_whole_batch_witness :
  load_to_postgres (sample_env t0) (frame_at t0 null_key_models)
                   (after_transform None)
  = (Raise IntegrityError, failed_load_world) /\
  getitems (frame_at t0 null_key_models) schema_columns
  = Ok (schema_part (frame_at t0 null_key_models)) /\
  values_tolist (schema_part (frame_at t0 null_key_models)) !! 1%nat
  = Some [ Obj JNull; Obj (JStr "unknown"); Obj (JInt 0); Obj (JInt 7);
           Obj (JStr ""); Obj (JStr ""); Obj (JStr ""); Obj (JStr "unknown");
           Obj (JBool false); Timestamp t0; Obj (JBool true);
           Timestamp (t0 + 1000) ] /\
  adapt (sample_env t0) TEXT (Obj JNull) = Ok SqlNull /\
  (exists e, Raise IntegrityError = Raise (A := unit) e) /\
  committed failed_load_world = committed (after_transform None).
Proof.
  assert (Hrun : load_to_postgres (sample_env t0) (frame_at t0 null_key_models)
                   (after_transform None)
                 = (Raise IntegrityError, failed_load_world))
    by evaluate.
  assert (Hsel : getitems (frame_at t0 null_key_models) schema_columns
                 = Ok (schema_part (frame_at t0 null_key_models)))
    by reflexivity.
  assert (Hrow : values_tolist (schema_part (frame_at t0 null_key_models))
                   !! 1%nat
                 = Some [ Obj JNull; Obj (JStr "unknown"); Obj (JInt 0);
                          Obj (JInt 7); Obj (JStr ""); Obj (JStr "");
                          Obj (JStr ""); Obj (JStr "unknown");
                          Obj (JBool false); Timestamp t0; Obj (JBool true);
                          Timestamp (t0 + 1000) ])
    by evaluate.
  split; [exact Hrun|]. split; [exact Hsel|]. split; [exact Hrow|].
  split; [reflexivity|].
  apply (null_key_fails_the_whole_batch (sample_env t0) _ _ _ _ _
           (Obj JNull)
           [ Obj (JStr "unknown"); Obj (JInt 0); Obj (JInt 7); Obj (JStr "");
             Obj (JStr ""); Obj (JStr ""); Obj (JStr "unknown");
             Obj (JBool false); Timestamp t0; Obj (JBool true);
             Timestamp (t0 + 1000) ]
           Hrun Hsel).
  - apply list_elem_of_In. eapply list_elem_of_lookup_2. exact Hrow.
  - reflexivity.
Defined.


(** ** The driver *)

Section DriverFacts.

Context (net : Net) (env : Env).

Lemma comprehension_json_done (xs : list json) (dicts : list pydict) :
  comprehension_json env xs = Done dicts ->
  exists ms,
    as_dicts xs = Done ms /\
    comprehension env ms = Ok dicts /\
    length ms = length xs.
Proof.
  revert dicts. induction xs as [|x xs IH]; intros dicts;
    cbn [comprehension_json as_dicts].
  - intros [= <-]. exists []. repeat split.
  - destruct (as_dict x) as [m|f]; [|discriminate].
    destruct (model_dict env m) as [d|e] eqn:Hd; [|discriminate].
    destruct (comprehension_json env xs) as [ds|f]; [|discriminate].
    intros [= <-]. destruct (IH ds eq_refl) as (ms & -> & Hms & Hlen).
    exists (m :: ms). cbn [comprehension]. rewrite Hd, Hms.
    repeat split. cbn. f_equal. exact Hlen.
Qed.

(** Iterating over a string or over a dict yields strings, and a string has
    no [.get]. *)
Lemma comprehension_json_strings (l : list json) :
  (forall x, In x l -> exists s, x = JStr s) ->
  comprehension_json env l = Done [] \/
  comprehension_json env l = Failed AttributeError.
Proof.
  destruct l as [|x l]; [left; reflexivity|].
  intros H. right. destruct (H x (or_introl eq_refl)) as [s ->]. reflexivity.
Qed.

Lemma finish_frame_empty (w : World) :
  finish_frame env (DataFrame_of_dicts env []) w
  = (Raise (KeyError "last_modified"), w).
Proof. reflexivity. Qed.

(** The transform on the body either stops before the clock is read, or goes
    on to line 58 with a non-empty list of records. *)
Lemma transform_json_cases (models : json) (w w1 : World)
    (o : outcome DataFrame) :
  transform_json env models w = (o, w1) ->
  (exists xs ms,
     models = JList xs /\ as_dicts xs = Done ms /\ ms <> [] /\
     length ms = length xs /\
     w1 = tick 2 w /\
     ((exists df, o = Done df /\
                  transform_models_data env ms w = (Ok df, w1)) \/
      (exists e, o = Failed (Exception e)))) \/
  (w1 = w /\ exists f, o = Failed f).
Proof.
  unfold transform_json.
  destruct models as [|b|n|s|xs|kvs]; cbn [iterate];
    try (intros [= <- <-]; right; eauto).
  - intros H.
    destruct (comprehension_json_strings
                (map (fun c => JStr (String c EmptyString))
                     (String.list_ascii_of_string s))) as [Hd|Hd].
    { intros x Hx. apply in_map_iff in Hx as (c & <- & _). eauto. }
    + rewrite Hd, finish_frame_empty in H. injection H as <- <-.
      right. eauto.
    + rewrite Hd in H. injection H as <- <-. right. eauto.
  - destruct (comprehension_json env xs) as [dicts|f] eqn:Hc.
    2:{ intros [= <- <-]. right. eauto. }
    destruct (comprehension_json_done _ _ Hc) as (ms & Hms & Hcomp & Hlen).
    destruct (comprehension_inv env _ _ Hcomp) as (mls & Hfst & Hall & ->).
    destruct mls as [|p ps].
    + rewrite finish_frame_empty. intros [= <- <-]. right. eauto.
    + rewrite finish_frame_row_dicts by discriminate.
      destruct (series_apply _ _) as [flags|e] eqn:Hflags;
        intros [= <- <-]; left; exists xs, ms;
        (split; [reflexivity|]); (split; [exact Hms|]);
        (split; [rewrite <- Hfst; discriminate|]);
        (split; [exact Hlen|]); (split; [reflexivity|]).
      * left. eexists. split; [reflexivity|].
        unfold transform_models_data, bind, lift. rewrite Hcomp.
        rewrite finish_frame_row_dicts by discriminate.
        rewrite Hflags. reflexivity.
      * right. eauto.
  - intros H.
    destruct (comprehension_json_strings (map (fun kv => JStr (fst kv)) kvs))
      as [Hd|Hd].
    { intros x Hx. apply in_map_iff in Hx as (c & <- & _). eauto. }
    + rewrite Hd, finish_frame_empty in H. injection H as <- <-.
      right. eauto.
    + rewrite Hd in H. injection H as <- <-. right. eauto.
Qed.

(** A request that cannot be completed, an answer with a status from 400 to
    599, or a body that is not JSON ends the run at once: the failure is
    logged, the clock is not read, the store is not contacted. *)
Theorem main_stops_at_failed_fetch (w : World) (f : failure) :
  (http_get net api_url [("limit", 500)] = None /\ f = RequestException) \/
  (exists response,
     http_get net api_url [("limit", 500)] = Some response /\
     400 <= status_code response < 600 /\
     f = HTTPError (status_code response)) \/
  (exists response,
     http_get net api_url [("limit", 500)] = Some response /\
     ~ (400 <= status_code response < 600) /\
     json_body response = None /\
     f = JSONDecodeError) ->
  main net env w = (RunFailed f, w).
Proof.
  unfold main, fetch_huggingface_models, raise_for_status.
  intros [[-> ->]|[(response & -> & Hst & ->)|(response & -> & Hst & Hbody & ->)]].
  - reflexivity.
  - replace ((400 <=? status_code response) && (status_code response <? 600))
      with true by (symmetry; apply andb_true_iff; split;
                    [apply Z.leb_le | apply Z.ltb_lt]; lia).
    reflexivity.
  - replace ((400 <=? status_code response) && (status_code response <? 600))
      with false.
    + rewrite Hbody. reflexivity.
    + symmetry. apply andb_false_iff.
      destruct (Z.leb_spec 400 (status_code response)); [|auto].
      right. apply Z.ltb_ge. lia.
Qed.

(** Whatever makes a run fail, at whatever stage, the store holds afterwards
    what it held before. *)
Theorem main_failure_leaves_store_unchanged (w w' : World) (f : failure) :
  main net env w = (RunFailed f, w') ->
  committed w' = committed w.
Proof.
  unfold main. destruct (fetch_huggingface_models net 500) as [models|f0].
  - destruct (transform_json env models w) as [[df|f1] w1] eqn:Ht.
    + destruct (transform_json_cases _ _ _ _ Ht)
        as [(xs & ms & _ & _ & _ & _ & -> & _)|[_ [f2 Hf]]];
        [|discriminate].
      destruct (load_to_postgres env df (tick 2 w)) as [[[]|e] w2] eqn:Hl;
        [discriminate|].
      intros [= <- <-]. apply load_to_postgres_inv in Hl.
      inversion Hl; subst; reflexivity.
    + intros [= <- <-].
      destruct (transform_json_cases _ _ _ _ Ht)
        as [(xs & ms & _ & _ & _ & _ & -> & _)|[-> _]]; reflexivity.
  - intros [= <- <-]. reflexivity.
Qed.

(** Unless the body is a non-empty list of objects, the run fails and leaves
    the world exactly as it was: an empty list, an object, a string, a number
    or a list with an element that is not an object never gets as far as the
    clock or the store. *)
Theorem main_needs_a_list_of_records (w w' : World) (v : verdict) :
  main net env w = (v, w') ->
  (exists xs ms,
     fetch_huggingface_models net 500 = Done (JList xs) /\
     as_dicts xs = Done ms /\ ms <> [] /\
     clock_reads w' = (2 + clock_reads w)%nat) \/
  (w' = w /\ exists f, v = RunFailed f).
Proof.
  unfold main. destruct (fetch_huggingface_models net 500) as [models|f0].
  - destruct (transform_json env models w) as [[df|f1] w1] eqn:Ht.
    + destruct (transform_json_cases _ _ _ _ Ht)
        as [(xs & ms & -> & Hms & Hne & _ & -> & _)|[_ [f2 Hf]]];
        [|discriminate].
      intros H. left. exists xs, ms. split; [reflexivity|].
      split; [exact Hms|]. split; [exact Hne|].
      pose proof (load_to_postgres_outcome env df (tick 2 w)) as Hout.
      destruct (load_to_postgres env df (tick 2 w)) as [[[]|e] w2];
        injection H as <- <-; cbn [fst snd] in Hout;
        inversion Hout; subst; reflexivity.
    + intros [= <- <-].
      destruct (transform_json_cases _ _ _ _ Ht)
        as [(xs & ms & -> & Hms & Hne & _ & -> & _)|[-> _]].
      * left. exists xs, ms. split; [reflexivity|].
        split; [exact Hms|]. split; [exact Hne|]. reflexivity.
      * right. eauto.
  - intros [= <- <-]. right. eauto.
Qed.

(** A run is logged as completed only if every record of the body was
    turned into a row and submitted, in order, before the one commit, and the
    connection was closed after it. *)
Theorem main_completed_means_committed (w w' : World) :
  main net env w = (Completed, w') ->
  exists xs ms sub final,
    fetch_huggingface_models net 500 = Done (JList xs) /\
    as_dicts xs = Done ms /\
    length (values_tolist sub) = length xs /\
    trace w' = trace w ++ prologue ++ map EvInsert (values_tolist sub)
                 ++ [EvCommit; EvCursorClose; EvClose] /\
    committed w' = Some final /\
    session w' = Some (mkSession false (Some final)).
Proof.
  unfold main. destruct (fetch_huggingface_models net 500) as [models|f0];
    [|discriminate].
  destruct (transform_json env models w) as [[df|f1] w1] eqn:Ht;
    [|discriminate].
  destruct (transform_json_cases _ _ _ _ Ht)
    as [(xs & ms & -> & Hms & Hne & Hlen & -> & [(df' & Hd & Hrun)|[e He]])
       |[_ [f2 Hf]]];
    [|discriminate|discriminate].
  injection Hd as <-.
  destruct (load_to_postgres env df (tick 2 w)) as [[[]|e] w2] eqn:Hl;
    [|discriminate].
  intros [= <-]. apply load_to_postgres_inv in Hl.
  inversion Hl as [| | | |sub final Hc Hcr Hsel Hbatch]; subst.
  exists xs, ms, sub, final. split; [reflexivity|]. split; [exact Hms|].
  split; [|cbn; auto].
  destruct (transform_inv env _ _ _ _ Hrun)
    as (mls & flags & Hfst & _ & _ & _ & -> & _).
  unfold values_tolist. rewrite length_map, length_seq.
  rewrite (getitems_len _ _ _ Hsel). cbn [framed df_len].
  rewrite <- Hlen, <- Hfst. symmetry. apply length_map.
Qed.

Lemma comprehension_json_bad_element (good rest : list json) (x : json) :
  (forall g, In g good ->
     exists m d, as_dict g = Done m /\ model_dict env m = Ok d) ->
  (forall kvs, x <> JDict kvs) ->
  comprehension_json env (good ++ x :: rest) = Failed AttributeError.
Proof.
  intros Hgood Hbad. induction good as [|g good IH]; cbn [app comprehension_json].
  - destruct x as [| | | | |kvs]; try reflexivity.
    exfalso. exact (Hbad kvs eq_refl).
  - destruct (Hgood g (or_introl eq_refl)) as (m & d & -> & ->).
    rewrite IH; [reflexivity|].
    intros g' Hg'. apply Hgood. right. exact Hg'.
Qed.

(** The first element of the body that is not an object fails the whole run
    with [AttributeError], however many good records come before and after
    it, as soon as [pd.to_datetime] accepts the [lastModified] of the records
    before it: the clock is not read and nothing is loaded. *)
Theorem main_fails_on_one_bad_element
    (w : World) (good rest : list json) (x : json) :
  fetch_huggingface_models net 500 = Done (JList (good ++ x :: rest)) ->
  (forall g, In g good ->
     exists m d, as_dict g = Done m /\ model_dict env m = Ok d) ->
  (forall kvs, x <> JDict kvs) ->
  main net env w = (RunFailed AttributeError, w).
Proof.
  intros Hfetch Hgood Hbad. unfold main, transform_json.
  rewrite Hfetch. cbn [iterate].
  rewrite (comprehension_json_bad_element good rest x Hgood Hbad).
  reflexivity.
Qed.

End DriverFacts.

(** The server answers 503. *)
Lemma main_stops_at_failed_fetch_witness :
  http_get (answering 503 None) api_url [("limit", 500)]
  = Some (mkResponse 503 None) /\
  400 <= 503 < 600 /\
  main (answering 503 None) (sample_env t0) (fresh_world (Some old_table))
  = (RunFailed (HTTPError 503), fresh_world (Some old_table)).
Proof.
  split; [reflexivity|]. split; [lia|].
  apply main_stops_at_failed_fetch.
  right. left. exists (mkResponse 503 None).
  split; [reflexivity|]. split; [cbn; lia | reflexivity].
Defined.

(** The body [two_records] against a store that refuses the connection. *)
Lemma main_failure_leaves_store_unchanged_witness :
  main (answering 200 (Some two_records)) refusing_env
       (fresh_world (Some old_table))
  = (RunFailed (Exception OperationalError),
     mkWorld 2 (Some old_table) None [EvConnect]) /\
  committed (mkWorld 2 (Some old_table) None [EvConnect])
  = committed (fresh_world (Some old_table)).
Proof.
  assert (H : main (answering 200 (Some two_records)) refusing_env
                (fresh_world (Some old_table))
              = (RunFailed (Exception OperationalError),
                 mkWorld 2 (Some old_table) None [EvConnect]))
    by evaluate.
  split; [exact H|].
  exact (main_failure_leaves_store_unchanged _ _ _ _ _ H).
Defined.

(** An empty list as body. *)
Lemma main_needs_a_list_of_records_witness :
  main (answering 200 (Some (JList []))) (sample_env t0) (fresh_world None)
  = (RunFailed (Exception (KeyError "last_modified")), fresh_world None) /\
  ((exists xs ms,
      fetch_huggingface_models (answering 200 (Some (JList []))) 500
      = Done (JList xs) /\
      as_dicts xs = Done ms /\ ms <> [] /\
      clock_reads (fresh_world None)
      = (2 + clock_reads (fresh_world None))%nat) \/
   (fresh_world None = fresh_world None /\
    exists f, RunFailed (Exception (KeyError "last_modified")) = RunFailed f)).
Proof.
  assert (H : main (answering 200 (Some (JList []))) (sample_env t0)
                (fresh_world None)
              = (RunFailed (Exception (KeyError "last_modified")),
                 fresh_world None))
    by evaluate.
  split; [exact H|].
  exact (main_needs_a_list_of_records _ _ _ _ _ H).
Defined.

(** The body [two_records] on a store without the table. *)
Lemma main_completed_means_committed_witness :
  main (answering 200 (Some two_records)) (sample_env t0) (fresh_world None)
  = (Completed, completed_world) /\
  exists xs ms sub final,
    fetch_huggingface_models (answering 200 (Some two_records)) 500
    = Done (JList xs) /\
    as_dicts xs = Done ms /\
    length (values_tolist sub) = length xs /\
    trace completed_world
    = trace (fresh_world None) ++ prologue
        ++ map EvInsert (values_tolist sub)
        ++ [EvCommit; EvCursorClose; EvClose] /\
    committed completed_world = Some final /\
    session completed_world = Some (mkSession false (Some final)).
Proof.
  assert (H : main (answering 200 (Some two_records)) (sample_env t0)
                (fresh_world None) = (Completed, completed_world))
    by evaluate.
  split; [exact H|].
  exact (main_completed_means_committed _ _ _ _ H).
Defined.

(** The body [broken_records]: its second element is a string. *)
Lemma main_fails_on_one_bad_element_witness :
  fetch_huggingface_models (answering 200 (Some broken_records)) 500
  = Done (JList ([ JDict [("modelId", JStr "a/b"); ("likes", JInt 5)] ]
                   ++ JStr "c/d" :: [])) /\
  (forall g, In g [ JDict [("modelId", JStr "a/b"); ("likes", JInt 5)] ] ->
     exists m d, as_dict g = Done m /\ model_dict (sample_env t0) m = Ok d) /\
  main (answering 200 (Some broken_records)) (sample_env t0)
       (fresh_world (Some old_table))
  = (RunFailed AttributeError, fresh_world (Some old_table)).
Proof.
  assert (Hgood : forall g,
             In g [ JDict [("modelId", JStr "a/b"); ("likes", JInt 5)] ] ->
             exists m d, as_dict g = Done m /\
                         model_dict (sample_env t0) m = Ok d).
  { intros g [<-|[]]. eexists _, _. split; reflexivity. }
  split; [reflexivity|]. split; [exact Hgood|].
  apply (main_fails_on_one_bad_element (answering 200 (Some broken_records))
           (sample_env t0) (fresh_world (Some old_table))
           [ JDict [("modelId", JStr "a/b"); ("likes", JInt 5)] ] []
           (JStr "c/d")).
  - reflexivity.
  - exact Hgood.
  - discriminate.
Defined.
